(** * The release script [scripts/update_changelog.py]

    A shallow embedding of the changelog and release script, and the
    properties of its stages: the pull-request fetcher, the classifier,
    the changelog and version-file updates, and the git step.

    Conventions of the embedding.
    - A Python [str] whose characters are inspected (file contents, the
      rendered fragment) is a [list ascii]: a sequence of code points
      below 256, where the class [\d] of [re] is exactly ['0'..'9'].
      A [str] used as a name (a path, a label, a dictionary key, a git
      argument) is a [string].
    - The file store maps a path to the text [Path.read_text] returns for
      it; [Path.write_text] replaces that text.  The bytes behind a text
      are modelled for ASCII files on a POSIX system, where reading maps
      the line endings CR LF and CR to LF and writing stores the text as
      it is.
    - A git command is carried out or rejected: the process state says
      which, from the files, the commands carried out so far and the
      command; a rejected command raises [GitCommandError] and has no
      effect.  The host likewise accepts or refuses the creation of a
      release.  Transport errors of the hosting API are outside the model.
    - An exception ends the computation and keeps the effects made so
      far. *)

From Stdlib Require Import Ascii String List Lia Bool Arith.
From stdpp Require Import base option list gmap strings sets.

Local Open Scope string_scope.
Local Open Scope nat_scope.
Local Open Scope list_scope.

(** ** Text *)

Abbreviation text := (list ascii).

Definition txt (s : string) : text := list_ascii_of_string s.

Definition NL : ascii := "010"%char.
Definition DQUOTE : ascii := "034"%char.
Definition BACKSLASH : ascii := "092"%char.
Definition LT : ascii := "<"%char.

(** ** Exceptions and results *)

(** One call [repo.git.<command>] with its positional and keyword
    arguments. *)
Record git_call : Type :=
  GitCall { command : string; args : list string;
            kwargs : list (string * string) }.

Inductive exn : Type :=
  | FileNotFoundError (path : string)
  | KeyError (key : string)
  | AttributeError
  | OverflowError
  | RuntimeError
  | AssertionError
  | GitCommandError (call : git_call)
  | LibraryError (tag : nat).

Inductive outcome (A : Type) : Type :=
  | Returned (a : A)
  | Raised (e : exn).
Arguments Returned {A} a.
Arguments Raised {A} e.

Definition obind {A B} (o : outcome A) (k : A → outcome B) : outcome B :=
  match o with
  | Returned a => k a
  | Raised e => Raised e
  end.

(** ** [str.startswith] and [str.replace] *)

Fixpoint startswith (p s : text) : bool :=
  match p, s with
  | [], _ => true
  | _ :: _, [] => false
  | a :: p', b :: s' => if Ascii.eqb a b then startswith p' s' else false
  end.

(** [s.replace(old, new)] scans [s] from the left; at an occurrence of
    [old] it emits [new] and resumes after the occurrence.  [skip] counts
    the characters of an occurrence still to be passed over.  An empty
    [old] occurs before every character and at the end. *)
Fixpoint replace_from (old new : text) (skip : nat) (s : text) : text :=
  match s with
  | [] =>
      match skip, old with
      | 0, [] => new
      | _, _ => []
      end
  | c :: s' =>
      match skip with
      | S k => replace_from old new k s'
      | 0 =>
          if startswith old s then
            match old with
            | [] => new ++ c :: replace_from old new 0 s'
            | _ :: o => new ++ replace_from old new (length o) s'
            end
          else c :: replace_from old new 0 s'
      end
  end.

Definition str_replace (old new s : text) : text := replace_from old new 0 s.

(** The start offsets at which [p] occurs in [s], overlapping ones
    included, in increasing order. *)
Fixpoint occurrences_from (p : text) (i : nat) (s : text) : list nat :=
  (if startswith p s then [i] else []) ++
  match s with
  | [] => []
  | _ :: s' => occurrences_from p (S i) s'
  end.

Definition occurrences (p s : text) : list nat := occurrences_from p 0 s.

(** ** The fragment of [re] the script uses

    A pattern is a sequence of items; an item is one character or one
    digit, possibly under the greedy [+]. *)

Inductive atom : Type :=
  | Chr (c : ascii)
  | Digit.

Inductive item : Type :=
  | One (a : atom)
  | Plus (a : atom).

Abbreviation pattern := (list item).

Definition is_digit (c : ascii) : bool :=
  (48 <=? nat_of_ascii c)%nat && (nat_of_ascii c <=? 57)%nat.

Definition atom_ok (a : atom) (c : ascii) : bool :=
  match a with
  | Chr x => Ascii.eqb x c
  | Digit => is_digit c
  end.

(** [match_here p s] is the text left after the match of [p] at the start
    of [s] that the backtracking matcher finds first: under [+] it takes
    as many characters as it can and gives them back one at a time. *)
Fixpoint match_here (p : pattern) (s : text) : option text :=
  match p with
  | [] => Some s
  | One a :: p' =>
      match s with
      | c :: s' => if atom_ok a c then match_here p' s' else None
      | [] => None
      end
  | Plus a :: p' =>
      (fix more (s : text) : option text :=
         match s with
         | c :: s' =>
             if atom_ok a c then
               match more s' with
               | Some r => Some r
               | None => match_here p' s'
               end
             else None
         | [] => None
         end) s
  end.

(** [re.sub] with a compiled replacement [repl] (a function of the matched
    text): leftmost matches, not overlapping; an empty match emits the
    replacement and keeps the character. *)
Fixpoint sub_from (p : pattern) (repl : text → text) (skip : nat) (s : text)
  : text :=
  match s with
  | [] =>
      match skip, match_here p [] with
      | 0, Some _ => repl []
      | _, _ => []
      end
  | c :: s' =>
      match skip with
      | S k => sub_from p repl k s'
      | 0 =>
          match match_here p s with
          | Some rest =>
              let n := length s - length rest in
              match n with
              | 0 => repl [] ++ c :: sub_from p repl 0 s'
              | S k => repl (take n s) ++ sub_from p repl k s'
              end
          | None => c :: sub_from p repl 0 s'
          end
      end
  end.

(** [re.search(p, s) is not None] *)
Fixpoint re_search (p : pattern) (s : text) : bool :=
  match match_here p s with
  | Some _ => true
  | None =>
      match s with
      | [] => false
      | _ :: s' => re_search p s'
      end
  end.

(** [s.split("\n")] *)
Fixpoint split_lines (s : text) : list text :=
  match s with
  | [] => [[]]
  | c :: s' =>
      if Ascii.eqb c NL then [] :: split_lines s'
      else match split_lines s' with
           | l :: ls => (c :: l) :: ls
           | [] => [[c]]
           end
  end.

Definition lit (s : string) : pattern := (λ c, One (Chr c)) <$> txt s.

Definition has_backslash (s : text) : bool :=
  existsb (Ascii.eqb BACKSLASH) s.

(** ** Dates

    [datetime.date] and [datetime.datetime], by their fields. *)

Record date : Type := Date { year : nat; month : nat; day : nat }.

Record datetime : Type :=
  DateTime { dt_year : nat; dt_month : nat; dt_day : nat;
             dt_hour : nat; dt_minute : nat; dt_second : nat }.

Global Instance date_eq_dec : EqDecision date.
Proof. solve_decision. Defined.

(** [datetime.date()] *)
Definition datetime_date (t : datetime) : date :=
  Date (dt_year t) (dt_month t) (dt_day t).

Definition date_eqb (a b : date) : bool :=
  (year a =? year b)%nat && (month a =? month b)%nat && (day a =? day b)%nat.

Definition is_leap (y : nat) : bool :=
  (y mod 4 =? 0)%nat && (negb (y mod 100 =? 0)%nat || (y mod 400 =? 0)%nat).

Definition days_in_month (y m : nat) : nat :=
  match m with
  | 2 => if is_leap y then 29 else 28
  | 4 | 6 | 9 | 11 => 30
  | _ => 31
  end.

(** [d - datetime.timedelta(days=1)]; the first day of year 1 has no
    predecessor among dates. *)
Definition date_sub_one_day (d : date) : outcome date :=
  if (1 <? day d)%nat then Returned (Date (year d) (month d) (day d - 1))
  else if (1 <? month d)%nat then
    Returned (Date (year d) (month d - 1) (days_in_month (year d) (month d - 1)))
  else if (1 <? year d)%nat then Returned (Date (year d - 1) 12 31)
  else Raised OverflowError.

Definition digit_of (n : nat) : ascii := ascii_of_nat (48 + n mod 10).

(** [f"{d:%Y.%m.%d}"], for the years of four digits. *)
Definition format_release (d : date) : string :=
  string_of_list_ascii
    ([digit_of (year d / 1000); digit_of (year d / 100);
      digit_of (year d / 10); digit_of (year d)] ++ txt "." ++
     [digit_of (month d / 10); digit_of (month d)] ++ txt "." ++
     [digit_of (day d / 10); digit_of (day d)]).

(** ** The objects of the hosting API *)

Record Label : Type := { name : string }.

Record PullRequest : Type := {
  number : nat;
  title : string;
  merged : bool;
  merged_at : option datetime;
  labels : list Label;
}.

(** The keyword arguments of [Repository.get_pulls]. *)
Record pulls_query : Type :=
  PullsQuery { state : string; sort : string; direction : string }.

Record GitRelease : Type :=
  { rel_tag : string; rel_name : string; rel_message : text }.

(** A repository handle answers [get_pulls] with a paginated list: its
    pages, in order. *)
Record Repository : Type := {
  get_pulls : pulls_query → list (list PullRequest);
}.

(** [PaginatedList.get_page] *)
Definition get_page {A} (pages : list (list A)) (i : nat) : list A :=
  default [] (pages !! i).

(** ** The process state *)

Record World : Type := {
  files : gmap string text;          (* path ↦ text *)
  git_branch : string;               (* the branch checked out in "." *)
  git_calls : list git_call;         (* git commands run, oldest first *)
  releases : list GitRelease;        (* releases created on the host *)
  stdout : list string;              (* lines printed *)
  remote : string → option Repository;
                                     (* what the host serves under a name *)
  git_accepts : gmap string text → list git_call → git_call → bool;
                                     (* files, commands carried out, command *)
  release_accepted : list GitRelease → GitRelease → bool;
                                     (* releases of the host, new release *)
}.

(** A computation reads and changes the process state and returns or
    raises. *)
Definition M (A : Type) : Type := World → World * outcome A.

Definition ret {A} (a : A) : M A := λ w, (w, Returned a).
Definition raise {A} (e : exn) : M A := λ w, (w, Raised e).
Definition bind {A B} (m : M A) (k : A → M B) : M B :=
  λ w, match m w with
       | (w', Returned a) => k a w'
       | (w', Raised e) => (w', Raised e)
       end.
Definition lift {A} (o : outcome A) : M A := λ w, (w, o).

Notation "'let*' x := m 'in' k" := (bind m (λ x, k))
  (at level 10, x name, m at level 100, k at level 200).
Notation "m ';;' k" := (bind m (λ _, k))
  (at level 100, k at level 200, right associativity).

(** [for x in xs: body x] *)
Fixpoint for_each {A} (xs : list A) (body : A → M unit) : M unit :=
  match xs with
  | [] => ret tt
  | x :: xs' => body x ;; for_each xs' body
  end.

(** Field updates of the process state. *)
Definition set_files (f : gmap string text) (w : World) : World :=
  {| files := f; git_branch := git_branch w; git_calls := git_calls w;
     releases := releases w; stdout := stdout w; remote := remote w;
     git_accepts := git_accepts w; release_accepted := release_accepted w |}.

Definition set_git_calls (l : list git_call) (w : World) : World :=
  {| files := files w; git_branch := git_branch w; git_calls := l;
     releases := releases w; stdout := stdout w; remote := remote w;
     git_accepts := git_accepts w; release_accepted := release_accepted w |}.

Definition set_releases (l : list GitRelease) (w : World) : World :=
  {| files := files w; git_branch := git_branch w; git_calls := git_calls w;
     releases := l; stdout := stdout w; remote := remote w;
     git_accepts := git_accepts w; release_accepted := release_accepted w |}.

Definition set_stdout (l : list string) (w : World) : World :=
  {| files := files w; git_branch := git_branch w; git_calls := git_calls w;
     releases := releases w; stdout := l; remote := remote w;
     git_accepts := git_accepts w; release_accepted := release_accepted w |}.

(** [Path.read_text], [Path.write_text], [print] *)
Definition read_text (path : string) : M text :=
  λ w, match files w !! path with
       | Some s => (w, Returned s)
       | None => (w, Raised (FileNotFoundError path))
       end.

Definition write_text (path : string) (s : text) : M unit :=
  λ w, (set_files (<[path := s]> (files w)) w, Returned tt).

Definition print (line : string) : M unit :=
  λ w, (set_stdout (stdout w ++ [line]) w, Returned tt).

(** [repo.git.<command>(...)], on the repository [git.Repo(".")]: the
    command is carried out when git accepts it, and raises when git exits
    with an error. *)
Definition git (c : git_call) : M unit :=
  λ w, if git_accepts w (files w) (git_calls w) c
       then (set_git_calls (git_calls w ++ [c]) w, Returned tt)
       else (w, Raised (GitCommandError c)).

(** [for c in cs: repo.git.<c>] *)
Definition git_all (cs : list git_call) : M unit := for_each cs git.

(** [repo.create_git_release(tag, name, message)] *)
Definition create_git_release (tag name : string) (message : text) : M unit :=
  λ w, let r := {| rel_tag := tag; rel_name := name; rel_message := message |} in
       if release_accepted w (releases w) r
       then (set_releases (releases w ++ [r]) w, Returned tt)
       else (w, Raised (LibraryError 422)).

(** ** The bytes of a text file

    [Path.read_text] opens the file in text mode with universal newlines,
    and [Path.write_text] writes the text with [LF] for a line break.  For
    ASCII bytes the decoding is the identity. *)

Definition CR : ascii := "013"%char.

Definition is_ascii_byte (c : ascii) : bool := nat_of_ascii c <? 128.

Fixpoint universal_newlines (b : list ascii) : text :=
  match b with
  | [] => []
  | c :: b' =>
      if Ascii.eqb c CR then
        NL :: match b' with
              | n :: b'' =>
                  if Ascii.eqb n NL then universal_newlines b''
                  else universal_newlines b'
              | [] => []
              end
      else c :: universal_newlines b'
  end.

(** The text [read_text] returns for the bytes of an ASCII file. *)
Definition text_of_bytes (b : list ascii) : option text :=
  if forallb is_ascii_byte b then Some (universal_newlines b) else None.

(** The bytes [write_text] stores for an ASCII text. *)
Definition bytes_of_text (s : text) : list ascii := s.

(** ** The script *)

Definition DEFAULT_BRANCH : string := "master".

(** The sentinel marker of the changelog. *)
Definition MARKER : text := txt "<!-- GENERATOR_PLACEHOLDER -->".

(** The pattern [\nversion = "\d+\.\d+\.\d+"\n]. *)
Definition VERSION_PATTERN : pattern :=
  [One (Chr NL)] ++ lit "version = " ++
  [One (Chr DQUOTE); Plus Digit; One (Chr "."); Plus Digit; One (Chr ".");
   Plus Digit; One (Chr DQUOTE); One (Chr NL)].

(** The text of a version line with its two line breaks, for three runs
    of digits. *)
Definition version_line (a b c : text) : text :=
  [NL] ++ txt "version = " ++ [DQUOTE] ++ a ++ txt "." ++ b ++ txt "." ++ c ++
  [DQUOTE; NL].

(** [str(x)] of an optional string: [None] prints as its name. *)
Definition py_str (x : option string) : string := default "None" x.

(** [Path / name] *)
Definition path_join (dir name : string) : string := dir +:+ "/" +:+ name.

(** A generator that walks [xs] and yields the items [keep] accepts: the
    items yielded, and the exception that ended the walk, if one did. *)
Fixpoint yield_if {A} (keep : A → outcome bool) (xs : list A)
  : list A * option exn :=
  match xs with
  | [] => ([], None)
  | x :: xs' =>
      match keep x with
      | Raised e => ([], Some e)
      | Returned b =>
          let r := yield_if keep xs' in
          ((if b then [x] else []) ++ r.1, r.2)
      end
  end.

(** [list(generator)] *)
Definition list_of {A} (g : list A * option exn) : outcome (list A) :=
  match g.2 with
  | None => Returned g.1
  | Some e => Raised e
  end.

(** [Github(login_or_token=token).get_repo(full_name)]: the client
    asserts that it is given a name, and the host answers for the names
    it serves. *)
Definition Github_get_repo (token full_name : option string) : M Repository :=
  λ w, match full_name with
       | None => (w, Raised AssertionError)
       | Some n =>
           match remote w n with
           | Some r => (w, Returned r)
           | None => (w, Raised (LibraryError 404))
           end
       end.

Section Script.

(** The module-level constants, fixed when the module is loaded. *)
Variable ROOT : string.
Variables GITHUB_TOKEN GITHUB_REPO : option string.
Variable MERGED_DATE : date.

(** Library code the script calls: the compiler of an [re] replacement
    string that has backslash escapes (it returns the expansion as a
    function of the matched text), and the rendering of a [jinja2]
    template source. *)
Variable re_template : text → outcome (text → text).
Variable jinja_render :
  text → date → gmap string (list PullRequest) → outcome text.

Definition RELEASE : string := format_release MERGED_DATE.

(** [re.sub(pattern, repl, string)]: the replacement is compiled first,
    and is taken literally when it has no backslash. *)
Definition re_sub (p : pattern) (repl s : text) : outcome text :=
  obind (if has_backslash repl then re_template repl
         else Returned (λ _, repl))
        (λ f, Returned (sub_from p f 0 s)).

(** The condition of the loop of [iter_pulls]:
    [pull.merged and pull.merged_at.date() == MERGED_DATE]. *)
Definition merged_on_date (pull : PullRequest) : outcome bool :=
  if merged pull then
    match merged_at pull with
    | Some t => Returned (date_eqb (datetime_date t) MERGED_DATE)
    | None => Raised AttributeError
    end
  else Returned false.

Definition iter_pulls (repo : Repository) : list PullRequest * option exn :=
  let recent_pulls :=
    get_page (get_pulls repo (PullsQuery "closed" "updated" "desc")) 0 in
  yield_if merged_on_date recent_pulls.

(** The body of the loop of [group_pulls_by_change_type]: the group
    name chosen for a pull request. *)
Definition change_type (pull : PullRequest) : string :=
  let label_names : gset string := list_to_set (name <$> labels pull) in
  if decide ("update" ∈ label_names) then "Updated"
  else if decide ("bug" ∈ label_names) then "Fixed"
  else "Changed".

(** [grouped_pulls[group_name].append(pull)] *)
Definition append_to (grouped_pulls : gmap string (list PullRequest))
    (group_name : string) (pull : PullRequest)
  : outcome (gmap string (list PullRequest)) :=
  match grouped_pulls !! group_name with
  | Some l => Returned (<[group_name := l ++ [pull]]> grouped_pulls)
  | None => Raised (KeyError group_name)
  end.

Fixpoint group_loop (grouped_pulls : gmap string (list PullRequest))
    (pull_requests_list : list PullRequest)
  : outcome (gmap string (list PullRequest)) :=
  match pull_requests_list with
  | [] => Returned grouped_pulls
  | pull :: rest =>
      obind (append_to grouped_pulls (change_type pull) pull)
            (λ g, group_loop g rest)
  end.

Definition group_pulls_by_change_type
    (pull_requests_list : list PullRequest)
  : outcome (gmap string (list PullRequest)) :=
  let grouped_pulls : gmap string (list PullRequest) :=
    <["Changed" := []]> (<["Fixed" := []]> (<["Updated" := []]> ∅)) in
  group_loop grouped_pulls pull_requests_list.

Definition generate_md (grouped_pulls : gmap string (list PullRequest))
  : M text :=
  let changelog_template :=
    path_join (path_join ROOT ".github") "changelog-template.md" in
  let* source := read_text changelog_template in
  lift (jinja_render source MERGED_DATE grouped_pulls).

Definition write_changelog (file_path : string) (content : text) : M unit :=
  let* old_content := read_text file_path in
  let updated_content :=
    str_replace MARKER (MARKER ++ [NL; NL] ++ content) old_content in
  write_text file_path updated_content.

Definition update_version (file_path : string) (release : string) : M unit :=
  let* old_content := read_text file_path in
  let* updated_content :=
    lift (re_sub VERSION_PATTERN
            (txt "version = " ++ [DQUOTE] ++ txt release ++ [DQUOTE])
            old_content) in
  write_text file_path updated_content.

Definition update_git_repo (paths : list string) (release : string)
  : M unit :=
  for_each paths (λ path, git (GitCall "add" [path] [])) ;;
  git (GitCall "commit" []
         [("m", "Release " +:+ release);
          ("author", "GitHub Actions <actions@github.com>")]) ;;
  git (GitCall "tag" ["-a"; release] []) ;;
  let server :=
    "https://" +:+ py_str GITHUB_TOKEN +:+ "@github.com/" +:+
    py_str GITHUB_REPO +:+ ".git" in
  git (GitCall "push" [server; DEFAULT_BRANCH] []) ;;
  git (GitCall "push" ["--tags"; server; DEFAULT_BRANCH] []).

Definition main : M unit :=
  let* repo := Github_get_repo GITHUB_TOKEN GITHUB_REPO in
  let* merged_pulls := lift (list_of (iter_pulls repo)) in
  match merged_pulls with
  | [] => print "Nothing was merged, existing."
  | _ :: _ =>
      let* grouped_pulls :=
        lift (group_pulls_by_change_type merged_pulls) in
      let* release_changes_summary := generate_md grouped_pulls in
      let changelog_path := path_join ROOT "CHANGELOG.md" in
      write_changelog changelog_path release_changes_summary ;;
      let setup_py_path := path_join ROOT "setup.py" in
      update_version setup_py_path RELEASE ;;
      update_git_repo [changelog_path; setup_py_path] RELEASE ;;
      create_git_release RELEASE RELEASE release_changes_summary
  end.

End Script.

(** Loading the module and running it as a script: the constants are
    computed from the clock and the environment, and [main] runs when the
    repository name is set. *)
Definition script (root : string) (today : date)
    (token repository : option string)
    (re_template : text → outcome (text → text))
    (jinja_render :
       text → date → gmap string (list PullRequest) → outcome text)
  : M unit :=
  let* merged_date := lift (date_sub_one_day today) in
  match repository with
  | None => raise RuntimeError
  | Some _ => main root token repository merged_date re_template jinja_render
  end.

(** ** Sample inputs for the closed instances *)

Definition files_only (fs : gmap string text) : World :=
  {| files := fs; git_branch := "develop"; git_calls := []; releases := [];
     stdout := []; remote := λ _, None;
     git_accepts := λ _ _ _, true; release_accepted := λ _ _, true |}.

Definition pr_bug : PullRequest :=
  {| number := 1; title := "Fix crash on start"; merged := true;
     merged_at := Some (DateTime 2024 3 5 10 30 0);
     labels := [{| name := "bug" |}] |}.

Definition pr_plain : PullRequest :=
  {| number := 2; title := "Rename module"; merged := true;
     merged_at := Some (DateTime 2024 3 5 17 0 0); labels := [] |}.

Definition pr_both : PullRequest :=
  {| number := 3; title := "Bump django"; merged := true;
     merged_at := Some (DateTime 2024 3 4 9 0 0);
     labels := [{| name := "bug" |}; {| name := "update" |}] |}.

Definition pr_both_reordered : PullRequest :=
  {| number := 4; title := "Bump celery"; merged := false;
     merged_at := None;
     labels := [{| name := "update" |}; {| name := "bug" |};
                {| name := "update" |}] |}.

Definition pr_open : PullRequest :=
  {| number := 5; title := "Closed unmerged"; merged := false;
     merged_at := None; labels := [] |}.

(** A repository that answers every query with the given pages. *)
Definition repo_with (pages : list (list PullRequest)) : Repository :=
  {| get_pulls := λ _, pages |}.

Definition world_with (r : Repository) : World :=
  {| files := ∅; git_branch := "develop"; git_calls := []; releases := [];
     stdout := [];
     remote := λ n, if decide (n = "owner/project") then Some r else None;
     git_accepts := λ _ _ _, true; release_accepted := λ _ _, true |}.

Definition plain_render
  : text → date → gmap string (list PullRequest) → outcome text :=
  λ source _ _, Returned source.

(** A git that rejects an annotated tag given without a message, and a
    working copy on the branch "master" that runs it. *)
Definition tag_needs_message
  : gmap string text → list git_call → git_call → bool :=
  λ _ _ c, negb (String.eqb (command c) "tag" &&
                 bool_decide ("-a" ∈ args c) &&
                 negb (bool_decide ("-m" ∈ args c))).

Definition strict_git_world (fs : gmap string text) (r : Repository) : World :=
  {| files := fs; git_branch := "master"; git_calls := []; releases := [];
     stdout := [];
     remote := λ n, if decide (n = "owner/project") then Some r else None;
     git_accepts := tag_needs_message; release_accepted := λ _ _, true |}.

(** A replacement compiler that rejects every template with escapes. *)
Definition reject_escapes : text → outcome (text → text) :=
  λ _, Raised (LibraryError 0).

(** A working copy with the three files the release reads, on a host that
    serves the repository. *)
Definition sample_template : text := txt "## {{ merge_date }}".

Definition sample_changelog : text :=
  txt "# Changelog" ++ [NL] ++ MARKER ++ [NL] ++ txt "## 2024.03.04" ++ [NL].

Definition sample_setup : text :=
  txt "name = x" ++ version_line (txt "0") (txt "1") (txt "0") ++
  txt "url = y" ++ [NL].

Definition release_world (fs : gmap string text) (r : Repository) : World :=
  {| files := fs; git_branch := "master"; git_calls := []; releases := [];
     stdout := [];
     remote := λ n, if decide (n = "owner/project") then Some r else None;
     git_accepts := λ _ _ _, true; release_accepted := λ _ _, true |}.

Definition sample_files : gmap string text :=
  <["/repo/.github/changelog-template.md" := sample_template]>
    (<["/repo/CHANGELOG.md" := sample_changelog]>
       (<["/repo/setup.py" := sample_setup]> ∅)).

(** * Properties *)

(** Runs the state-and-exception plumbing of a computation. *)
Ltac run_M :=
  unfold bind, lift, ret, raise, read_text, write_text, print, git.

(** ** Occurrences and [str.replace] *)

Lemma startswith_app (p s : text) : startswith p (p ++ s) = true.
Proof.
  induction p as [|a p IH]; simpl; [done|].
  by rewrite Ascii.eqb_refl.
Qed.

Lemma startswith_split (p s : text) :
  startswith p s = true → s = p ++ drop (length p) s.
Proof.
  revert s; induction p as [|a p IH]; intros [|b s]; simpl; try done.
  destruct (Ascii.eqb a b) eqn:E; [|done].
  apply Ascii.eqb_eq in E as ->. intros H. by rewrite <-(IH s H).
Qed.

(** Text beyond the length of [p] does not decide whether [p] starts a
    text. *)
Lemma startswith_long (p a t : text) :
  length p ≤ length a → startswith p (a ++ t) = startswith p a.
Proof.
  revert a; induction p as [|x p IH]; intros [|y a]; simpl; try done; [lia|].
  intros H. destruct (Ascii.eqb x y); [|done]. apply IH. lia.
Qed.

Lemma startswith_head (p : text) (x c : ascii) (s : text) :
  head p = Some x → c ≠ x → startswith p (c :: s) = false.
Proof.
  destruct p as [|a p]; simpl; [done|]. intros [= ->] Hc.
  destruct (Ascii.eqb x c) eqn:E; [|done].
  apply Ascii.eqb_eq in E. congruence.
Qed.

Lemma occurrences_from_cons (p : text) (i : nat) (c : ascii) (s : text) :
  occurrences_from p i (c :: s)
  = (if startswith p (c :: s) then [i] else []) ++ occurrences_from p (S i) s.
Proof. reflexivity. Qed.

Lemma occurrences_from_shift (p : text) (i : nat) (s : text) :
  occurrences_from p i s = (λ k, i + k) <$> occurrences_from p 0 s.
Proof.
  revert i; induction s as [|c s IH]; intros i; simpl.
  - destruct (startswith p []); simpl; [f_equal; lia | done].
  - rewrite fmap_app, (IH (S i)), (IH 1), <-list_fmap_compose.
    f_equal.
    + destruct (startswith p (c :: s)); simpl; [f_equal; lia | done].
    + apply list_fmap_ext. intros _ k _. simpl. lia.
Qed.

Lemma occurrences_from_nil_shift (p : text) (i j : nat) (s : text) :
  occurrences_from p i s = [] → occurrences_from p j s = [].
Proof.
  rewrite (occurrences_from_shift p i), (occurrences_from_shift p j).
  intros H%fmap_nil_inv. by rewrite H.
Qed.

(** Every offset reported lies at or after the offset of the scan. *)
Lemma occurrences_from_ge (p : text) (i : nat) (s : text) (k : nat) :
  k ∈ occurrences_from p i s → i ≤ k.
Proof.
  rewrite occurrences_from_shift. intros (j & -> & _)%list_elem_of_fmap. lia.
Qed.

(** A stretch [u] in which no occurrence starts adds nothing. *)
Lemma occurrences_from_skip (p u : text) (i : nat) (s : text) :
  (∀ k, k < length u → startswith p (drop k (u ++ s)) = false) →
  occurrences_from p i (u ++ s) = occurrences_from p (i + length u) s.
Proof.
  revert i; induction u as [|c u IH]; intros i H; simpl.
  - by rewrite Nat.add_0_r.
  - pose proof (H 0 ltac:(simpl; lia)) as H0. simpl in H0. rewrite H0. simpl.
    rewrite IH; [f_equal; lia|].
    intros k Hk. apply (H (S k)). simpl; lia.
Qed.

(** Conversely, an occurrence list that starts at [i + length u] has no
    occurrence inside [u]. *)
Lemma occurrences_from_first (p u : text) (i : nat) (s : text) (l : list nat) :
  occurrences_from p i (u ++ s) = (i + length u) :: l →
  (∀ k, k < length u → startswith p (drop k (u ++ s)) = false) ∧
  occurrences_from p (i + length u) s = (i + length u) :: l.
Proof.
  revert i; induction u as [|c u IH]; intros i H; simpl in *.
  - rewrite Nat.add_0_r in *. split; [intros; lia | done].
  - destruct (startswith p (c :: u ++ s)) eqn:E; simpl in H.
    { injection H as H _. lia. }
    replace (i + S (length u)) with (S i + length u) in * by lia.
    destruct (IH _ H) as [H1 H2]. split; [|done].
    intros [|k] Hk; simpl; [done|]. apply H1. lia.
Qed.

Lemma replace_from_skip (old new u s : text) :
  replace_from old new (length u) (u ++ s) = replace_from old new 0 s.
Proof. induction u as [|c u IH]; simpl; [done | apply IH]. Qed.

Lemma replace_from_match (old new s : text) :
  old ≠ [] →
  replace_from old new 0 (old ++ s) = new ++ replace_from old new 0 s.
Proof.
  destruct old as [|c o]; [done|]. intros _.
  change ((c :: o) ++ s) with (c :: (o ++ s)).
  cbn [replace_from].
  change (c :: (o ++ s)) with ((c :: o) ++ s).
  by rewrite startswith_app, replace_from_skip.
Qed.

Lemma replace_from_pass (old new u s : text) :
  (∀ k, k < length u → startswith old (drop k (u ++ s)) = false) →
  replace_from old new 0 (u ++ s) = u ++ replace_from old new 0 s.
Proof.
  induction u as [|c u IH]; intros H; simpl; [done|].
  pose proof (H 0 ltac:(simpl; lia)) as H0. simpl in H0. rewrite H0.
  f_equal. apply IH. intros k Hk. apply (H (S k)). simpl; lia.
Qed.

(** A text in which [old] does not occur is returned as it is. *)
Lemma str_replace_absent (old new s : text) :
  occurrences old s = [] → str_replace old new s = s.
Proof.
  unfold occurrences, str_replace. generalize 0 at 1.
  induction s as [|c s IH]; intros i; simpl.
  - destruct old; simpl; [done|done].
  - destruct (startswith old (c :: s)); simpl; [done|].
    intros H. f_equal. by apply (IH (S i)).
Qed.

(** ** The sentinel marker *)

Lemma MARKER_cons : MARKER = LT :: tail MARKER.
Proof. reflexivity. Qed.

(** The marker opens with a character that it does not repeat. *)
Lemma MARKER_tail_no_lt : Forall (λ c, c ≠ LT) (tail MARKER).
Proof. vm_compute. repeat (constructor; [discriminate|]). constructor. Qed.

Lemma marker_not_inside (u s : text) :
  Forall (λ c, c ≠ LT) u →
  ∀ k, k < length u → startswith MARKER (drop k (u ++ s)) = false.
Proof.
  induction 1 as [|c u Hc Hu IH]; intros k Hk; simpl in Hk; [lia|].
  destruct k as [|k]; simpl.
  - by apply (startswith_head MARKER LT).
  - apply IH. lia.
Qed.

Lemma occurrences_from_marker (i : nat) (s : text) :
  occurrences_from MARKER i (MARKER ++ s)
  = i :: occurrences_from MARKER (S i + length (tail MARKER)) s.
Proof.
  rewrite MARKER_cons at 2.
  change ((LT :: tail MARKER) ++ s) with (LT :: (tail MARKER ++ s)).
  rewrite occurrences_from_cons.
  change (LT :: (tail MARKER ++ s)) with ((LT :: tail MARKER) ++ s).
  rewrite <-MARKER_cons, startswith_app.
  rewrite occurrences_from_skip
    by (apply marker_not_inside, MARKER_tail_no_lt).
  reflexivity.
Qed.

(** What [str.replace] makes of a changelog with one marker. *)
Lemma replace_marker_once (pre post new : text) :
  occurrences MARKER (pre ++ MARKER ++ post) = [length pre] →
  str_replace MARKER new (pre ++ MARKER ++ post) = pre ++ new ++ post.
Proof.
  unfold occurrences, str_replace. intros H.
  apply (occurrences_from_first MARKER pre 0) in H as [Hpre H].
  rewrite replace_from_pass by done.
  rewrite replace_from_match by done.
  do 2 f_equal. apply str_replace_absent. unfold occurrences.
  rewrite occurrences_from_marker in H. injection H as H.
  by apply occurrences_from_nil_shift with (j := 0) in H.
Qed.

(** The marker occurs once in the updated changelog when it does not
    occur in the fragment followed by the old entries. *)
Lemma occurrences_marker_updated (pre post content : text) :
  occurrences MARKER (pre ++ MARKER ++ post) = [length pre] →
  occurrences MARKER (content ++ post) = [] →
  occurrences MARKER (pre ++ MARKER ++ [NL; NL] ++ content ++ post)
  = [length pre].
Proof.
  unfold occurrences. intros H Hc.
  apply (occurrences_from_first MARKER pre 0) in H as [Hpre _].
  rewrite occurrences_from_skip.
  - rewrite occurrences_from_marker. f_equal.
    rewrite occurrences_from_skip.
    + by apply occurrences_from_nil_shift with (i := 0).
    + apply marker_not_inside. by repeat constructor.
  - intros k Hk. specialize (Hpre k Hk).
    rewrite drop_app_le in Hpre |- * by lia.
    rewrite (app_assoc _ MARKER) in Hpre |- *.
    rewrite startswith_long in Hpre |- *; [done| |]; rewrite length_app; lia.
Qed.

Lemma occurrences_from_elem (p : text) (j : nat) (s : text) (k : nat) :
  k ∈ occurrences_from p j s →
  j ≤ k ∧ k - j ≤ length s ∧ startswith p (drop (k - j) s) = true.
Proof.
  revert j; induction s as [|c s IH]; intros j; simpl.
  - destruct (startswith p []) eqn:E; simpl; [|by intros ?%elem_of_nil].
    intros ->%list_elem_of_singleton. by rewrite Nat.sub_diag.
  - intros [H|H]%elem_of_app.
    + destruct (startswith p (c :: s)) eqn:E; [|by apply elem_of_nil in H].
      apply list_elem_of_singleton in H as ->. rewrite Nat.sub_diag.
      simpl. repeat split; [lia..|done].
    + apply IH in H as (H1 & H2 & H3).
      replace (k - j) with (S (k - S j)) by lia. simpl.
      repeat split; [lia..|done].
Qed.

(** A text with an occurrence of the marker at [i], cut around it. *)
Lemma marker_cut (old : text) (i : nat) :
  i ∈ occurrences MARKER old →
  old = take i old ++ MARKER ++ drop (i + length MARKER) old ∧
  length (take i old) = i.
Proof.
  intros (_ & Hi & H)%occurrences_from_elem. rewrite Nat.sub_0_r in Hi, H.
  apply startswith_split in H. rewrite drop_drop in H.
  split; [|rewrite length_take; lia].
  by rewrite <-H, take_drop.
Qed.

Lemma set_files_id (w : World) (path : string) (s : text) :
  files w !! path = Some s → set_files (<[path := s]> (files w)) w = w.
Proof. intros H. destruct w. unfold set_files; simpl in *. by rewrite insert_id. Qed.

(** ** The changelog update *)

(** C3, as the code has it.  When the marker occurs exactly once in the
    changelog, at offset [i], and does not occur in the rendered fragment
    followed by the text that was after the marker, the update writes the
    text before the marker, the marker, a blank line, the fragment and
    then the text that was after the marker; both old parts are unchanged,
    and the marker still occurs exactly once, at [i]. *)
Theorem write_changelog_one_marker (w : World) (path : string)
    (old content : text) (i : nat) :
  files w !! path = Some old →
  occurrences MARKER old = [i] →
  occurrences MARKER (content ++ drop (i + length MARKER) old) = [] →
  let updated :=
    take i old ++ MARKER ++ [NL; NL] ++ content ++
    drop (i + length MARKER) old in
  write_changelog path content w
  = (set_files (<[path := updated]> (files w)) w, Returned tt) ∧
  occurrences MARKER updated = [i].
Proof.
  intros Hf Hocc Hc updated.
  assert (i ∈ occurrences MARKER old) as [Hcut Hlen]%marker_cut
    by (rewrite Hocc; apply list_elem_of_singleton; reflexivity).
  set (pre := take i old) in *. set (post := drop (i + length MARKER) old) in *.
  assert (occurrences MARKER (pre ++ MARKER ++ post) = [length pre]) as Hone
    by (by rewrite <-Hcut, Hlen).
  split.
  - unfold write_changelog; run_M. rewrite Hf.
    do 3 f_equal. rewrite Hcut at 1.
    rewrite (replace_marker_once pre post) by done.
    subst updated. by rewrite <-!app_assoc.
  - subst updated.
    rewrite (occurrences_marker_updated pre post content Hone Hc).
    by rewrite Hlen.
Qed.

Lemma write_changelog_one_marker_witness :
  let old := txt "# Changelog" ++ [NL] ++ MARKER ++ [NL] ++ txt "## 2024.03.04" in
  let w := files_only {[ "CHANGELOG.md" := old ]} in
  let updated :=
    take 12 old ++ MARKER ++ [NL; NL] ++ txt "## 2024.03.05" ++
    drop (12 + length MARKER) old in
  write_changelog "CHANGELOG.md" (txt "## 2024.03.05") w
  = (set_files (<["CHANGELOG.md" := updated]> (files w)) w, Returned tt) ∧
  occurrences MARKER updated = [12].
Proof.
  intros old w updated.
  apply (write_changelog_one_marker w "CHANGELOG.md" old (txt "## 2024.03.05") 12);
    vm_compute; reflexivity.
Defined.

(** The claim C3 taken literally fails twice: a changelog with two markers
    keeps two (each gets the fragment), and a fragment that contains the
    marker adds an occurrence. *)
Lemma write_changelog_marker_not_unique :
  (let old := MARKER ++ [NL] ++ MARKER in
   let w := files_only {[ "CHANGELOG.md" := old ]} in
   occurrences MARKER old = [0; 31] ∧
   (occurrences MARKER <$>
      files (write_changelog "CHANGELOG.md" (txt "x") w).1 !! "CHANGELOG.md")
   = Some [0; 34]) ∧
  (let old := MARKER ++ [NL] in
   let w := files_only {[ "CHANGELOG.md" := old ]} in
   occurrences MARKER old = [0] ∧
   (occurrences MARKER <$>
      files (write_changelog "CHANGELOG.md" MARKER w).1 !! "CHANGELOG.md")
   = Some [0; 32]).
Proof. vm_compute. repeat split. Qed.

(** On the text that [read_text] returns, an update without marker
    changes nothing. *)
Lemma write_changelog_absent_text (w : World) (path : string)
    (old content : text) :
  files w !! path = Some old →
  occurrences MARKER old = [] →
  write_changelog path content w = (w, Returned tt) ∧
  write_changelog path content w
  = (set_files (<[path := old]> (files w)) w, Returned tt).
Proof.
  intros Hf Hocc.
  assert (write_changelog path content w
          = (set_files (<[path := old]> (files w)) w, Returned tt)) as E.
  { unfold write_changelog; run_M. rewrite Hf.
    by rewrite str_replace_absent. }
  split; [|done]. by rewrite E, set_files_id.
Qed.

(** Bytes without a carriage return are read as they are. *)
Lemma universal_newlines_without_cr (b : list ascii) :
  CR ∉ b → universal_newlines b = b.
Proof.
  induction b as [|c b IH]; [done|]. intros H.
  apply not_elem_of_cons in H as [Hc Hb]. cbn [universal_newlines].
  destruct (Ascii.eqb c CR) eqn:E.
  - apply Ascii.eqb_eq in E. congruence.
  - by rewrite IH.
Qed.

(** C9, as the code has it.  When the marker does not occur in the
    changelog, the update raises no error and writes back the text it has
    read.  For an ASCII changelog the bytes written are therefore the old
    bytes with every line ending [CR LF] or [CR] turned into [LF]: the
    file is byte-identical when it holds no carriage return. *)
Theorem write_changelog_without_marker (w : World) (path : string)
    (bytes : list ascii) (old content : text) :
  text_of_bytes bytes = Some old →
  files w !! path = Some old →
  occurrences MARKER old = [] →
  ∃ written,
    write_changelog path content w
    = (set_files (<[path := written]> (files w)) w, Returned tt) ∧
    bytes_of_text written = universal_newlines bytes ∧
    (CR ∉ bytes → bytes_of_text written = bytes).
Proof.
  intros Hb Hf Hocc. exists old.
  unfold text_of_bytes in Hb.
  destruct (forallb is_ascii_byte bytes); [injection Hb as <- | done].
  split; [by apply write_changelog_absent_text|].
  split; [done|]. apply universal_newlines_without_cr.
Qed.

Lemma write_changelog_without_marker_witness :
  let bytes := txt "# Changelog" ++ [NL] ++ txt "no marker here" ++ [NL] in
  let w := files_only {[ "CHANGELOG.md" := bytes ]} in
  ∃ written,
    write_changelog "CHANGELOG.md" (txt "## 2024.03.05") w
    = (set_files (<["CHANGELOG.md" := written]> (files w)) w, Returned tt) ∧
    bytes_of_text written = universal_newlines bytes ∧
    (CR ∉ bytes → bytes_of_text written = bytes).
Proof.
  intros bytes w.
  apply (write_changelog_without_marker w "CHANGELOG.md" bytes bytes);
    vm_compute; reflexivity.
Defined.

(** The claim C9 fails on a changelog with [CR LF] line endings and no
    marker: the update returns, and the bytes it writes end the lines with
    [LF], so they are not the bytes that were there. *)
Lemma write_changelog_rewrites_crlf :
  let bytes :=
    txt "# Changelog" ++ [CR; NL] ++ txt "no marker here" ++ [CR; NL] in
  let old := txt "# Changelog" ++ [NL] ++ txt "no marker here" ++ [NL] in
  let w := files_only {[ "CHANGELOG.md" := old ]} in
  text_of_bytes bytes = Some old ∧
  occurrences MARKER old = [] ∧
  write_changelog "CHANGELOG.md" (txt "## 2024.03.05") w
  = (set_files (<["CHANGELOG.md" := old]> (files w)) w, Returned tt) ∧
  bytes_of_text old ≠ bytes.
Proof. vm_compute. repeat split. discriminate. Qed.

(** ** The version bump *)

Lemma sub_from_no_match (p : pattern) (repl : text → text) (s : text) :
  re_search p s = false → sub_from p repl 0 s = s.
Proof.
  induction s as [|c s IH]; simpl.
  - by destruct (match_here p []).
  - destruct (match_here p (c :: s)); [done|]. intros H. by rewrite IH.
Qed.

Lemma has_backslash_app (a b : text) :
  has_backslash (a ++ b) = has_backslash a || has_backslash b.
Proof. apply existsb_app. Qed.

Lemma sub_from_skip (p : pattern) (repl : text → text) (u s : text) :
  sub_from p repl (length u) (u ++ s) = sub_from p repl 0 s.
Proof. induction u as [|c u IH]; simpl; [done | apply IH]. Qed.

(** At a match that is not empty the replacement is emitted and the scan
    resumes after the match. *)
Lemma sub_from_match (p : pattern) (repl : text → text) (m s : text) :
  m ≠ [] → match_here p (m ++ s) = Some s →
  sub_from p repl 0 (m ++ s) = repl m ++ sub_from p repl 0 s.
Proof.
  destruct m as [|c m]; [done|]. intros _ H.
  change ((c :: m) ++ s) with (c :: (m ++ s)) in *.
  cbn [sub_from]. rewrite H.
  replace (length (c :: m ++ s) - length s) with (S (length m))
    by (simpl; rewrite length_app; lia).
  change (c :: m ++ s) with ((c :: m) ++ s).
  rewrite take_app_length' by done.
  by rewrite sub_from_skip.
Qed.

Lemma sub_from_pass (p : pattern) (repl : text → text) (u s : text) :
  (∀ k, k < length u → match_here p (drop k (u ++ s)) = None) →
  sub_from p repl 0 (u ++ s) = u ++ sub_from p repl 0 s.
Proof.
  induction u as [|c u IH]; intros H; simpl; [done|].
  pose proof (H 0 ltac:(simpl; lia)) as H0. simpl in H0. rewrite H0.
  f_equal. apply IH. intros k Hk. apply (H (S k)). simpl; lia.
Qed.

Lemma match_here_plus (a : atom) (p : pattern) (c : ascii) (s : text) :
  match_here (Plus a :: p) (c :: s)
  = if atom_ok a c then
      match match_here (Plus a :: p) s with
      | Some r => Some r
      | None => match_here p s
      end
    else None.
Proof. reflexivity. Qed.

Lemma match_here_one (a : atom) (p : pattern) (c : ascii) (s : text) :
  match_here (One a :: p) (c :: s)
  = if atom_ok a c then match_here p s else None.
Proof. reflexivity. Qed.

(** A run of digits before a character that is not a digit is taken whole
    by the digits under [+] when that character comes next in the
    pattern. *)
Lemma match_digits (c : ascii) (p : pattern) (ds s : text) :
  is_digit c = false → ds ≠ [] → forallb is_digit ds = true →
  match_here (Plus Digit :: One (Chr c) :: p) (ds ++ c :: s)
  = match_here p s.
Proof.
  intros Hc Hne Hds. induction ds as [|d ds IH]; [done|].
  simpl in Hds. apply andb_true_iff in Hds as [Hd Hds].
  change ((d :: ds) ++ c :: s) with (d :: (ds ++ c :: s)).
  rewrite match_here_plus. simpl atom_ok. rewrite Hd.
  destruct ds as [|d' ds].
  - simpl app. rewrite match_here_plus. simpl atom_ok. rewrite Hc.
    rewrite match_here_one. simpl atom_ok. by rewrite Ascii.eqb_refl.
  - rewrite IH by done. destruct (match_here p s); [done|].
    change ((d' :: ds) ++ c :: s) with (d' :: (ds ++ c :: s)).
    rewrite match_here_one. simpl atom_ok.
    destruct (Ascii.eqb c d') eqn:E; [|done].
    apply Ascii.eqb_eq in E as <-.
    simpl in Hds. by rewrite Hc in Hds.
Qed.

Lemma match_literal (cs : text) (p : pattern) (s : text) :
  match_here (((λ c, One (Chr c)) <$> cs) ++ p) (cs ++ s) = match_here p s.
Proof.
  induction cs as [|c cs IH]; [done|].
  change (match_here (One (Chr c) :: (((λ c, One (Chr c)) <$> cs) ++ p))
            (c :: (cs ++ s)) = match_here p s).
  rewrite match_here_one. simpl atom_ok. by rewrite Ascii.eqb_refl.
Qed.

Lemma match_version_line (a b c s : text) :
  a ≠ [] → b ≠ [] → c ≠ [] →
  forallb is_digit a = true → forallb is_digit b = true →
  forallb is_digit c = true →
  match_here VERSION_PATTERN (version_line a b c ++ s) = Some s.
Proof.
  intros Ha Hb Hc Da Db Dc.
  change VERSION_PATTERN
    with (((λ c, One (Chr c)) <$> ([NL] ++ txt "version = " ++ [DQUOTE])) ++
          [Plus Digit; One (Chr "."); Plus Digit; One (Chr "."); Plus Digit;
           One (Chr DQUOTE); One (Chr NL)]).
  replace (version_line a b c ++ s)
    with (([NL] ++ txt "version = " ++ [DQUOTE]) ++
          a ++ "."%char :: b ++ "."%char :: c ++ DQUOTE :: NL :: s)
    by (unfold version_line; by rewrite <-!app_assoc).
  rewrite match_literal.
  rewrite !(match_digits "."%char) by done.
  rewrite (match_digits DQUOTE) by done.
  reflexivity.
Qed.

(** X1.  What the version bump writes for a file with one version line:
    the text before the line, the new assignment and the text after the
    line, with neither of the two line breaks the pattern has taken. *)
Lemma update_version_at_version_line
    (re_template : text → outcome (text → text))
    (w : World) (path release : string) (pre a b c post : text) :
  let old := pre ++ version_line a b c ++ post in
  files w !! path = Some old →
  has_backslash (txt release) = false →
  a ≠ [] → b ≠ [] → c ≠ [] →
  forallb is_digit a = true → forallb is_digit b = true →
  forallb is_digit c = true →
  (∀ k, k < length pre → match_here VERSION_PATTERN (drop k old) = None) →
  re_search VERSION_PATTERN post = false →
  update_version re_template path release w
  = (set_files
       (<[path := pre ++ (txt "version = " ++ [DQUOTE] ++ txt release ++
                          [DQUOTE]) ++ post]> (files w)) w,
     Returned tt).
Proof.
  intros old Hf Hr Ha Hb Hc Da Db Dc Hpre Hpost.
  unfold update_version, re_sub; run_M.
  rewrite Hf, !has_backslash_app, Hr. simpl obind. cbv beta iota.
  do 3 f_equal. subst old.
  rewrite sub_from_pass by done.
  rewrite sub_from_match; [|by destruct a|by apply match_version_line].
  by rewrite sub_from_no_match.
Qed.

Lemma digit_of_not_backslash (n : nat) :
  Ascii.eqb BACKSLASH (digit_of n) = false.
Proof.
  unfold digit_of. pose proof (Nat.mod_upper_bound n 10 ltac:(lia)) as H.
  generalize dependent (n mod 10). intros k Hk.
  do 10 (destruct k as [|k]; [reflexivity|]). lia.
Qed.

(** A release identifier has no backslash: its replacement string is
    taken literally. *)
Lemma format_release_no_backslash (d : date) :
  has_backslash (txt (format_release d)) = false.
Proof.
  unfold format_release, txt. rewrite list_ascii_of_string_of_list_ascii.
  unfold has_backslash. cbn [existsb app list_ascii_of_string].
  rewrite !digit_of_not_backslash. reflexivity.
Qed.

(** C2, as the code has it.  When no part of the version file matches the
    version-assignment pattern (and the release identifier has no
    backslash), the version bump raises nothing: it returns, and the file
    store is what it was. *)
Theorem update_version_no_match
    (re_template : text → outcome (text → text))
    (w : World) (path release : string) (old : text) :
  files w !! path = Some old →
  has_backslash (txt release) = false →
  re_search VERSION_PATTERN old = false →
  update_version re_template path release w = (w, Returned tt).
Proof.
  intros Hf Hr Hs.
  unfold update_version, re_sub; run_M.
  rewrite Hf, !has_backslash_app, Hr. simpl.
  rewrite sub_from_no_match by done. by rewrite set_files_id.
Qed.

Lemma update_version_no_match_witness :
  let old := txt "name = x" ++ [NL] ++ txt "version = 1.0" ++ [NL] in
  let w := files_only {[ "setup.py" := old ]} in
  update_version reject_escapes "setup.py" "2024.03.05" w = (w, Returned tt).
Proof.
  intros old w.
  apply (update_version_no_match reject_escapes w "setup.py" "2024.03.05" old);
    vm_compute; reflexivity.
Defined.

(** The claim C2 fails: on a version file whose version line is malformed
    the version bump returns normally. *)
Lemma update_version_malformed_returns :
  let old :=
    txt "name = x" ++ [NL] ++ txt "version = " ++ [DQUOTE] ++ txt "1.0" ++
    [DQUOTE; NL] in
  let w := files_only {[ "setup.py" := old ]} in
  re_search VERSION_PATTERN old = false ∧
  update_version reject_escapes "setup.py" "2024.03.05" w = (w, Returned tt).
Proof. vm_compute. split; reflexivity. Qed.

(** C1 at a version file of three lines.  The pattern takes the line
    break before and the line break after the version line, and the
    replacement has neither: the line before and the line after are
    joined to the version line, so no line of the file is kept. *)
Theorem update_version_joins_lines :
  let old :=
    txt "name = x" ++ [NL] ++ txt "version = " ++ [DQUOTE] ++ txt "0.1.0" ++
    [DQUOTE; NL] ++ txt "url = y" ++ [NL] in
  let updated :=
    txt "name = xversion = " ++ [DQUOTE] ++ txt "2024.03.05" ++ [DQUOTE] ++
    txt "url = y" ++ [NL] in
  let w := files_only {[ "setup.py" := old ]} in
  split_lines old
  = [txt "name = x"; txt "version = " ++ [DQUOTE] ++ txt "0.1.0" ++ [DQUOTE];
     txt "url = y"; []] ∧
  update_version reject_escapes "setup.py" "2024.03.05" w
  = (set_files {[ "setup.py" := updated ]} w, Returned tt) ∧
  split_lines updated = [removelast updated; []].
Proof. vm_compute. repeat split. Qed.

(** ** The classifier *)

Lemma change_type_cases (pull : PullRequest) :
  change_type pull = "Updated" ∨ change_type pull = "Fixed" ∨
  change_type pull = "Changed".
Proof. unfold change_type. repeat case_decide; auto. Qed.

(** The group name follows the label names, "update" first. *)
Lemma change_type_spec (pull : PullRequest) :
  change_type pull =
    if decide ("update" ∈ name <$> labels pull) then "Updated"
    else if decide ("bug" ∈ name <$> labels pull) then "Fixed"
    else "Changed".
Proof.
  unfold change_type.
  repeat case_decide; try done; exfalso;
    repeat match goal with
           | H : _ ∈ list_to_set _ |- _ => apply elem_of_list_to_set in H
           | H : _ ∉ list_to_set _ |- _ => rewrite elem_of_list_to_set in H
           end; done.
Qed.

(** The loop appends each pull request to the list of its group and
    leaves the other lists alone; it never meets a missing key when the
    three group names are keys. *)
Lemma group_loop_spec (pulls : list PullRequest) :
  ∀ m : gmap string (list PullRequest),
    is_Some (m !! "Changed") → is_Some (m !! "Fixed") →
    is_Some (m !! "Updated") →
    ∃ m' : gmap string (list PullRequest),
      group_loop m pulls = Returned m' ∧
      ∀ g, m' !! g
           = (λ l, l ++ filter (λ p, change_type p = g) pulls) <$> m !! g.
Proof.
  induction pulls as [|p pulls IH]; intros m Hc Hf Hu; simpl.
  - exists m. split; [done|]. intros g.
    destruct (m !! g); simpl; [by rewrite app_nil_r | done].
  - assert (is_Some (m !! change_type p)) as [l Hl]
      by (destruct (change_type_cases p) as [->|[->| ->]]; done).
    unfold append_to. rewrite Hl. simpl.
    destruct (IH (<[change_type p := l ++ [p]]> m)) as (m' & Hrun & Hm').
    1-3: rewrite lookup_insert; case_decide; [eauto | done].
    exists m'. split; [done|]. intros g. rewrite Hm', lookup_insert.
    case_decide as Hg.
    + subst g. rewrite Hl. simpl. rewrite filter_cons_True by done.
      by rewrite <-app_assoc.
    + rewrite filter_cons_False by done. done.
Qed.

(** The result of the classifier: it returns, and every group holds the
    pull requests of its name, in input order. *)
Lemma group_pulls_spec (pulls : list PullRequest) :
  ∃ m : gmap string (list PullRequest),
    group_pulls_by_change_type pulls = Returned m ∧
    dom m = ({["Changed"; "Fixed"; "Updated"]} : gset string) ∧
    (∀ g, g = "Changed" ∨ g = "Fixed" ∨ g = "Updated" →
          m !! g = Some (filter (λ p, change_type p = g) pulls)) ∧
    (∀ g l, m !! g = Some l → l = filter (λ p, change_type p = g) pulls).
Proof.
  unfold group_pulls_by_change_type.
  destruct (group_loop_spec pulls
    (<["Changed" := []]> (<["Fixed" := []]> (<["Updated" := []]> ∅))))
    as (m & Hrun & Hm); [by eexists..|].
  exists m. split; [done|]. split; [|split].
  - apply set_eq. intros g. rewrite elem_of_dom, Hm, fmap_is_Some.
    rewrite <-elem_of_dom, !dom_insert_L. set_solver.
  - intros g [->|[->| ->]]; by rewrite Hm.
  - intros g l. rewrite Hm, !lookup_insert.
    repeat case_decide; simpl; try rewrite lookup_empty; simpl; congruence.
Qed.

Lemma group_filters_permutation (pulls : list PullRequest) :
  pulls ≡ₚ
    filter (λ p, change_type p = "Changed") pulls ++
    filter (λ p, change_type p = "Fixed") pulls ++
    filter (λ p, change_type p = "Updated") pulls.
Proof.
  induction pulls as [|p pulls IH]; [done|].
  destruct (change_type_cases p) as [E|[E|E]].
  - rewrite (filter_cons_False (λ p, _ = "Changed")) by (by rewrite E).
    rewrite (filter_cons_False (λ p, _ = "Fixed")) by (by rewrite E).
    rewrite (filter_cons_True (λ p, _ = "Updated")) by done.
    rewrite app_assoc, <-Permutation_middle, <-app_assoc. by constructor.
  - rewrite (filter_cons_False (λ p, _ = "Changed")) by (by rewrite E).
    rewrite (filter_cons_True (λ p, _ = "Fixed")) by done.
    rewrite (filter_cons_False (λ p, _ = "Updated")) by (by rewrite E).
    simpl. rewrite <-Permutation_middle. by constructor.
  - rewrite (filter_cons_True (λ p, _ = "Changed")) by done.
    rewrite (filter_cons_False (λ p, _ = "Fixed")) by (by rewrite E).
    rewrite (filter_cons_False (λ p, _ = "Updated")) by (by rewrite E).
    simpl. by constructor.
Qed.

(** C6.  For every input sequence the classifier returns a mapping whose
    keys are exactly "Changed", "Fixed" and "Updated" (a group without
    pull requests maps to the empty list); the three lists together are a
    rearrangement of the input, so that every pull request is in exactly
    one of them; and each list is a subsequence of the input, in input
    order. *)
Theorem classifier_partitions (pulls : list PullRequest) :
  ∃ (m : gmap string (list PullRequest)) (changed fixed updated : list PullRequest),
    group_pulls_by_change_type pulls = Returned m ∧
    dom m = ({["Changed"; "Fixed"; "Updated"]} : gset string) ∧
    m !! "Changed" = Some changed ∧ m !! "Fixed" = Some fixed ∧
    m !! "Updated" = Some updated ∧
    pulls ≡ₚ changed ++ fixed ++ updated ∧
    (∀ p, p ∈ pulls →
       (p ∈ changed ∧ (p ∉ fixed) ∧ (p ∉ updated)) ∨
       ((p ∉ changed) ∧ p ∈ fixed ∧ (p ∉ updated)) ∨
       ((p ∉ changed) ∧ (p ∉ fixed) ∧ p ∈ updated)) ∧
    (changed `sublist_of` pulls) ∧ (fixed `sublist_of` pulls) ∧
    (updated `sublist_of` pulls) ∧
    (pulls = [] → changed = [] ∧ fixed = [] ∧ updated = []).
Proof.
  destruct (group_pulls_spec pulls) as (m & Hrun & Hdom & Hm & _).
  exists m. eexists _, _, _. split; [done|]. split; [done|].
  split; [apply Hm; auto|]. split; [apply Hm; auto|].
  split; [apply Hm; auto|].
  split; [apply group_filters_permutation|].
  split; [|split_and!; try apply sublist_filter; by intros ->].
  intros p Hp. rewrite !list_elem_of_filter.
  destruct (change_type_cases p) as [E|[E|E]]; rewrite E;
    [right; right | right; left | left]; split_and!; try done;
    by intros [? _].
Qed.

(** C5.  Every pull request of the input is put in the list of "Updated"
    when "update" is among its label names, whatever its other labels;
    otherwise in the list of "Fixed" when "bug" is among them; otherwise
    in the list of "Changed"; and it is in the list of no other group. *)
Theorem classifier_assigns (pulls : list PullRequest) (pull : PullRequest) :
  pull ∈ pulls →
  ∃ m : gmap string (list PullRequest),
    group_pulls_by_change_type pulls = Returned m ∧
    let g := if decide ("update" ∈ name <$> labels pull) then "Updated"
             else if decide ("bug" ∈ name <$> labels pull) then "Fixed"
             else "Changed" in
    (∃ l, m !! g = Some l ∧ pull ∈ l) ∧
    ∀ g' l', g' ≠ g → m !! g' = Some l' → pull ∉ l'.
Proof.
  intros Hin.
  destruct (group_pulls_spec pulls) as (m & Hrun & _ & Hm & Hother).
  exists m. split; [done|]. rewrite <-change_type_spec. split.
  - exists (filter (λ p, change_type p = change_type pull) pulls). split.
    + apply Hm. destruct (change_type_cases pull) as [->|[->| ->]]; auto.
    + by apply list_elem_of_filter.
  - intros g' l' Hne ->%Hother.
    rewrite list_elem_of_filter. by intros [? _].
Qed.

(** Pull requests with the same label names get the same group name. *)
Lemma change_type_labels (p q : PullRequest) :
  (∀ n, n ∈ name <$> labels p ↔ n ∈ name <$> labels q) →
  change_type p = change_type q.
Proof.
  intros H. rewrite !change_type_spec.
  pose proof (H "update") as Hu. pose proof (H "bug") as Hb. clear H.
  repeat case_decide; solve [done | tauto].
Qed.

Lemma Forall2_filter_change_type (R : PullRequest → PullRequest → Prop)
    (g : string) (ps qs : list PullRequest) :
  (∀ p q, R p q → change_type p = change_type q) →
  Forall2 R ps qs →
  Forall2 R (filter (λ p, change_type p = g) ps)
            (filter (λ p, change_type p = g) qs).
Proof.
  intros HR. induction 1 as [|p q ps qs Hpq _ IH]; [constructor|].
  rewrite !filter_cons, (HR _ _ Hpq). case_decide; [by constructor | done].
Qed.

(** C10.  Take two input sequences of the same length whose pull requests
    have, position by position, the same label names (as sets: the order
    of the labels and how often a name is repeated are not compared).
    Then the classifier returns on both, a pull request of the first
    sequence and the one at its position in the second are in the lists of
    the same group, and the lists of a group correspond item by item. *)
Theorem classifier_reads_label_names_only (ps qs : list PullRequest) :
  Forall2 (λ p q, ∀ n, n ∈ name <$> labels p ↔ n ∈ name <$> labels q) ps qs →
  ∃ m1 m2 : gmap string (list PullRequest),
    group_pulls_by_change_type ps = Returned m1 ∧
    group_pulls_by_change_type qs = Returned m2 ∧
    (∀ i p q g l1 l2,
       ps !! i = Some p → qs !! i = Some q →
       m1 !! g = Some l1 → m2 !! g = Some l2 →
       (p ∈ l1 ↔ q ∈ l2)) ∧
    (∀ g l1 l2,
       m1 !! g = Some l1 → m2 !! g = Some l2 →
       Forall2 (λ p q, ∀ n, n ∈ name <$> labels p ↔ n ∈ name <$> labels q)
               l1 l2).
Proof.
  intros H.
  destruct (group_pulls_spec ps) as (m1 & Hrun1 & _ & _ & Hm1).
  destruct (group_pulls_spec qs) as (m2 & Hrun2 & _ & _ & Hm2).
  exists m1, m2. split; [done|]. split; [done|]. split.
  - intros i p q g l1 l2 Hp Hq ->%Hm1 ->%Hm2.
    rewrite !list_elem_of_filter.
    assert (change_type p = change_type q) as ->.
    { apply change_type_labels.
      by apply (Forall2_lookup_lr _ ps qs i p q H). }
    apply list_elem_of_lookup_2 in Hp, Hq. tauto.
  - intros g l1 l2 ->%Hm1 ->%Hm2.
    apply Forall2_filter_change_type; [apply change_type_labels | done].
Qed.

Lemma classifier_assigns_witness :
  ∃ m : gmap string (list PullRequest),
    group_pulls_by_change_type [pr_bug; pr_both; pr_plain] = Returned m ∧
    let g := if decide ("update" ∈ name <$> labels pr_both) then "Updated"
             else if decide ("bug" ∈ name <$> labels pr_both) then "Fixed"
             else "Changed" in
    (∃ l, m !! g = Some l ∧ pr_both ∈ l) ∧
    ∀ g' l', g' ≠ g → m !! g' = Some l' → pr_both ∉ l'.
Proof.
  apply (classifier_assigns [pr_bug; pr_both; pr_plain] pr_both).
  right; left.
Defined.

Lemma classifier_reads_label_names_only_witness :
  ∃ m1 m2 : gmap string (list PullRequest),
    group_pulls_by_change_type [pr_both; pr_plain] = Returned m1 ∧
    group_pulls_by_change_type [pr_both_reordered; pr_open] = Returned m2 ∧
    (∀ i p q g l1 l2,
       [pr_both; pr_plain] !! i = Some p →
       [pr_both_reordered; pr_open] !! i = Some q →
       m1 !! g = Some l1 → m2 !! g = Some l2 →
       (p ∈ l1 ↔ q ∈ l2)) ∧
    (∀ g l1 l2,
       m1 !! g = Some l1 → m2 !! g = Some l2 →
       Forall2 (λ p q, ∀ n, n ∈ name <$> labels p ↔ n ∈ name <$> labels q)
               l1 l2).
Proof.
  apply (classifier_reads_label_names_only
           [pr_both; pr_plain] [pr_both_reordered; pr_open]).
  constructor; [intros n; simpl; rewrite !elem_of_cons; tauto|].
  constructor; [intros n; simpl; tauto|]. constructor.
Defined.

(** ** The fetcher *)

Lemma date_eqb_eq (a b : date) : date_eqb a b = true ↔ a = b.
Proof.
  destruct a, b. unfold date_eqb; simpl.
  rewrite !andb_true_iff, !Nat.eqb_eq. split; [intros [[-> ->] ->] | intros [= -> -> ->]]; done.
Qed.

Lemma yield_if_filter {A} (keep : A → outcome bool) (P : A → Prop)
    `{!∀ x, Decision (P x)} (xs : list A) :
  (∀ x, x ∈ xs → keep x = Returned (bool_decide (P x))) →
  yield_if keep xs = (filter P xs, None).
Proof.
  induction xs as [|x xs IH]; intros Hk; simpl; [done|].
  rewrite (Hk x) by left. rewrite IH by (intros; apply Hk; by right). simpl.
  rewrite filter_cons. by case_bool_decide; case_decide.
Qed.

(** C8.  With the target date [d] the day before the day of the run, and
    a first page on which every merged pull request carries its merge
    time, the fetcher runs to its end and yields the pull requests of the
    first page of the closed pull requests, most recently updated first,
    that are merged with merge date [d], in the order of the page.  A pull
    request that is not on the first page is not yielded. *)
Theorem iter_pulls_first_page (today d : date) (repo : Repository) :
  date_sub_one_day today = Returned d →
  let page := get_page (get_pulls repo (PullsQuery "closed" "updated" "desc")) 0 in
  (∀ p, p ∈ page → merged p = true → is_Some (merged_at p)) →
  iter_pulls d repo
  = (filter (λ p, merged p = true ∧ datetime_date <$> merged_at p = Some d)
            page, None) ∧
  (∀ p, p ∉ page → p ∉ (iter_pulls d repo).1).
Proof.
  intros _ page Hwf.
  assert (iter_pulls d repo
          = (filter (λ p, merged p = true ∧
                          datetime_date <$> merged_at p = Some d) page, None))
    as E.
  { unfold iter_pulls. fold page. apply yield_if_filter.
    intros p Hp. unfold merged_on_date.
    destruct (merged p) eqn:Em.
    - destruct (Hwf p Hp Em) as [t Ht]. rewrite Ht. simpl. f_equal.
      destruct (date_eqb (datetime_date t) d) eqn:Ed.
      + apply date_eqb_eq in Ed as ->. by rewrite bool_decide_eq_true_2.
      + rewrite bool_decide_eq_false_2; [done|].
        intros [_ [= Hd]]. apply date_eqb_eq in Hd. congruence.
    - rewrite bool_decide_eq_false_2; [done | by intros [? _]]. }
  split; [done|]. rewrite E. simpl. intros p Hp.
  rewrite list_elem_of_filter. tauto.
Qed.

Lemma iter_pulls_first_page_witness :
  let repo := repo_with [[pr_plain; pr_open; pr_both; pr_bug]; [pr_bug]] in
  let d := Date 2024 3 5 in
  let page := get_page (get_pulls repo (PullsQuery "closed" "updated" "desc")) 0 in
  iter_pulls d repo
  = (filter (λ p, merged p = true ∧ datetime_date <$> merged_at p = Some d)
            page, None) ∧
  (∀ p, p ∉ page → p ∉ (iter_pulls d repo).1).
Proof.
  intros repo d page.
  apply (iter_pulls_first_page (Date 2024 3 6) d repo); [reflexivity|].
  intros p Hp Hm. subst page. simpl in Hp.
  repeat (apply elem_of_cons in Hp as [->|Hp];
          [first [discriminate Hm | by eexists]|]).
  by apply elem_of_nil in Hp.
Defined.

(** ** Runs of git commands *)

Lemma set_git_calls_id (w : World) : set_git_calls (git_calls w) w = w.
Proof. by destruct w. Qed.

Lemma bind_ret_tt (m : M unit) (w : World) : (m ;; ret tt) w = m w.
Proof. unfold bind, ret. by destruct (m w) as [w' [[]|e]]. Qed.

Lemma for_each_fmap {A B} (f : A → B) (xs : list A) (body : B → M unit)
    (w : World) :
  for_each (f <$> xs) body w = for_each xs (λ x, body (f x)) w.
Proof.
  revert w; induction xs as [|x xs IH]; intros w; simpl; [done|].
  unfold bind. destruct (body (f x) w) as [w' [[]|e]]; [apply IH | done].
Qed.

Lemma for_each_app {A} (xs ys : list A) (body : A → M unit) (w : World) :
  for_each (xs ++ ys) body w = (for_each xs body ;; for_each ys body) w.
Proof.
  revert w; induction xs as [|x xs IH]; intros w; simpl; [done|].
  unfold bind in *. destruct (body x w) as [w' [[]|e]]; [apply IH | done].
Qed.

(** The git step is the run of its commands, one after the other. *)
Lemma update_git_repo_git_all (token repository : option string)
    (paths : list string) (release : string) (w : World) :
  update_git_repo token repository paths release w
  = git_all
      (((λ path, GitCall "add" [path] []) <$> paths) ++
       [GitCall "commit" []
          [("m", "Release " +:+ release);
           ("author", "GitHub Actions <actions@github.com>")];
        GitCall "tag" ["-a"; release] [];
        GitCall "push"
          ["https://" +:+ py_str token +:+ "@github.com/" +:+
           py_str repository +:+ ".git"; "master"] [];
        GitCall "push"
          ["--tags";
           "https://" +:+ py_str token +:+ "@github.com/" +:+
           py_str repository +:+ ".git"; "master"] []]) w.
Proof.
  unfold git_all, update_git_repo. rewrite for_each_app.
  cbn [for_each]. unfold bind, ret. rewrite for_each_fmap.
  destruct (for_each paths _ w) as [w' [[]|e]]; [|done].
  destruct (git _ w') as [w1 [[]|e1]]; [|done].
  destruct (git _ w1) as [w2 [[]|e2]]; [|done].
  destruct (git _ w2) as [w3 [[]|e3]]; [|done].
  by destruct (git _ w3) as [w4 [[]|e4]].
Qed.

(** When git accepts each command in its turn, all are carried out. *)
Lemma git_all_accepted (cs : list git_call) :
  ∀ w : World,
    (∀ k c, cs !! k = Some c →
            git_accepts w (files w) (git_calls w ++ take k cs) c = true) →
    git_all cs w = (set_git_calls (git_calls w ++ cs) w, Returned tt).
Proof.
  unfold git_all. induction cs as [|c cs IH]; intros w H; simpl.
  - by rewrite app_nil_r, set_git_calls_id.
  - unfold bind, git. pose proof (H 0 c eq_refl) as H0.
    simpl in H0. rewrite app_nil_r in H0. rewrite H0.
    rewrite IH.
    + cbn [git_calls set_git_calls]. unfold set_git_calls; cbn.
      by rewrite <-app_assoc.
    + intros k c' Hk. cbn. rewrite <-app_assoc. apply (H (S k) c' Hk).
Qed.

(** The run ends at the first command git rejects: the commands before
    it have been carried out, and none after it is run. *)
Lemma git_all_rejected (pre : list git_call) (c : git_call)
    (post : list git_call) :
  ∀ w : World,
    (∀ k c', pre !! k = Some c' →
             git_accepts w (files w) (git_calls w ++ take k pre) c' = true) →
    git_accepts w (files w) (git_calls w ++ pre) c = false →
    git_all (pre ++ c :: post) w
    = (set_git_calls (git_calls w ++ pre) w, Raised (GitCommandError c)).
Proof.
  unfold git_all. induction pre as [|c0 pre IH]; intros w H Hc; simpl.
  - unfold bind, git. rewrite app_nil_r in Hc |- *. rewrite Hc.
    by rewrite set_git_calls_id.
  - unfold bind at 1. unfold git at 1. pose proof (H 0 c0 eq_refl) as H0.
    simpl in H0. rewrite app_nil_r in H0. rewrite H0.
    rewrite IH.
    + unfold set_git_calls; cbn. by rewrite <-app_assoc.
    + intros k c' Hk. cbn. rewrite <-app_assoc. apply (H (S k) c' Hk).
    + cbn. by rewrite <-app_assoc.
Qed.

(** ** The early exit and the git step *)

Section Run.

Variable ROOT : string.
Variables GITHUB_TOKEN GITHUB_REPO : option string.
Variable re_template : text → outcome (text → text).
Variable jinja_render :
  text → date → gmap string (list PullRequest) → outcome text.

(** C7.  When the repository is served and no pull request of the first
    page was merged on the target date, [main] returns normally right
    after the fetch: it prints one line and does nothing else, so the
    files, the git commands run and the releases of the host are what
    they were. *)
Theorem main_nothing_merged (d : date) (full_name : string)
    (repo : Repository) (w : World) :
  GITHUB_REPO = Some full_name →
  remote w full_name = Some repo →
  (∀ p, p ∈ get_page (get_pulls repo (PullsQuery "closed" "updated" "desc")) 0 →
        merged p = false ∨
        ∃ t, merged_at p = Some t ∧ datetime_date t ≠ d) →
  ∃ w',
    main ROOT GITHUB_TOKEN GITHUB_REPO d re_template jinja_render w
    = (w', Returned tt) ∧
    w' = set_stdout (stdout w ++ ["Nothing was merged, existing."]) w ∧
    files w' = files w ∧ git_calls w' = git_calls w ∧
    releases w' = releases w.
Proof.
  intros -> Hrepo Hnone. eexists. split; [|done].
  unfold main, bind, Github_get_repo, lift, list_of, iter_pulls.
  rewrite Hrepo.
  rewrite (yield_if_filter (merged_on_date d) (λ _, False)).
  - assert (∀ l : list PullRequest, filter (λ _, False) l = []) as ->; [|done].
    induction l as [|p l IH]; [done|].
    rewrite filter_cons_False; [exact IH | tauto].
  - intros p [Hp|(t & Ht & Hd)]%Hnone; unfold merged_on_date.
    + by rewrite Hp.
    + rewrite Ht. destruct (merged p); [|done]. f_equal.
      rewrite bool_decide_eq_false_2 by tauto.
      apply not_true_is_false. by intros ?%date_eqb_eq.
Qed.

(** C4, as the code has it.  For every release identifier the git step
    of [main] runs these commands in this order, each one after git has
    accepted the ones before it: [add] of the changelog, [add] of the
    version file, [commit] with the message "Release " followed by the
    release identifier and the author
    "GitHub Actions <actions@github.com>", [tag -a] with the release
    identifier as the tag name, [push] of the branch named "master" to
    the URL that carries the token, and [push --tags] of the same branch
    to the same URL.  When git accepts all six, these six and no other
    have been carried out and the step returns. *)
Theorem update_git_repo_commands (release : string) (w : World) :
  let changelog_path := path_join ROOT "CHANGELOG.md" in
  let setup_py_path := path_join ROOT "setup.py" in
  let server :=
    "https://" +:+ py_str GITHUB_TOKEN +:+ "@github.com/" +:+
    py_str GITHUB_REPO +:+ ".git" in
  let commands :=
    [GitCall "add" [changelog_path] [];
     GitCall "add" [setup_py_path] [];
     GitCall "commit" []
       [("m", "Release " +:+ release);
        ("author", "GitHub Actions <actions@github.com>")];
     GitCall "tag" ["-a"; release] [];
     GitCall "push" [server; "master"] [];
     GitCall "push" ["--tags"; server; "master"] []] in
  (∀ k c, commands !! k = Some c →
          git_accepts w (files w) (git_calls w ++ take k commands) c = true) →
  update_git_repo GITHUB_TOKEN GITHUB_REPO
    [changelog_path; setup_py_path] release w
  = (set_git_calls (git_calls w ++ commands) w, Returned tt).
Proof.
  intros changelog_path setup_py_path server commands Hok.
  rewrite update_git_repo_git_all. by apply git_all_accepted.
Qed.

End Run.

(** X15.  Run as a script without [GITHUB_REPOSITORY], the module raises
    [RuntimeError] before [main] starts: nothing is fetched, written or
    pushed. *)
Lemma script_without_repository (root : string) (today d : date)
    (token : option string)
    (re_template : text → outcome (text → text))
    (jinja_render :
       text → date → gmap string (list PullRequest) → outcome text)
    (w : World) :
  date_sub_one_day today = Returned d →
  script root today token None re_template jinja_render w
  = (w, Raised RuntimeError).
Proof. intros H. unfold script; run_M. by rewrite H. Qed.

Lemma main_nothing_merged_witness :
  let repo := repo_with [[pr_both; pr_open]; [pr_bug]] in
  let w := world_with repo in
  ∃ w',
    main "/repo" (Some "t0ken") (Some "owner/project") (Date 2024 3 5)
         reject_escapes plain_render w
    = (w', Returned tt) ∧
    w' = set_stdout (stdout w ++ ["Nothing was merged, existing."]) w ∧
    files w' = files w ∧ git_calls w' = git_calls w ∧
    releases w' = releases w.
Proof.
  intros repo w.
  apply (main_nothing_merged "/repo" (Some "t0ken") (Some "owner/project")
           reject_escapes plain_render (Date 2024 3 5) "owner/project" repo w);
    [reflexivity | reflexivity |].
  intros p Hp. simpl in Hp.
  apply elem_of_cons in Hp as [->|Hp];
    [right; eexists; split; [reflexivity | discriminate]|].
  apply elem_of_cons in Hp as [->|Hp]; [by left|].
  by apply elem_of_nil in Hp.
Defined.

Lemma update_git_repo_commands_witness :
  let w := files_only ∅ in
  let server := "https://" +:+ py_str (Some "t0ken") +:+ "@github.com/" +:+
                py_str (Some "owner/project") +:+ ".git" in
  update_git_repo (Some "t0ken") (Some "owner/project")
    [path_join "/repo" "CHANGELOG.md"; path_join "/repo" "setup.py"]
    "2024.03.05" w
  = (set_git_calls
       (git_calls w ++
        [GitCall "add" [path_join "/repo" "CHANGELOG.md"] [];
         GitCall "add" [path_join "/repo" "setup.py"] [];
         GitCall "commit" []
           [("m", "Release " +:+ "2024.03.05");
            ("author", "GitHub Actions <actions@github.com>")];
         GitCall "tag" ["-a"; "2024.03.05"] [];
         GitCall "push" [server; "master"] [];
         GitCall "push" ["--tags"; server; "master"] []]) w,
     Returned tt).
Proof.
  intros w server.
  apply (update_git_repo_commands "/repo" (Some "t0ken")
           (Some "owner/project") "2024.03.05" w).
  intros k c _. reflexivity.
Defined.

(** The claim C4 fails twice.  It says that the branch pushed is the
    current one: in a working copy on the branch "develop" both pushes
    name "master".  And it says that the pushes follow: with a git that
    rejects an annotated tag without a message, the step raises at the tag
    after the two [add] and the [commit], and nothing is pushed. *)
Lemma update_git_repo_pushes_master :
  (let w := files_only ∅ in
   let w' :=
     (update_git_repo (Some "t0ken") (Some "owner/project")
        [path_join "/repo" "CHANGELOG.md"; path_join "/repo" "setup.py"]
        "2024.03.05" w).1 in
   git_branch w = "develop" ∧ git_branch w' = "develop" ∧
   filter (λ c, command c = "push") (git_calls w')
   = [GitCall "push" ["https://t0ken@github.com/owner/project.git"; "master"] [];
      GitCall "push"
        ["--tags"; "https://t0ken@github.com/owner/project.git"; "master"] []]) ∧
  (let w := strict_git_world ∅ (repo_with []) in
   let r :=
     update_git_repo (Some "t0ken") (Some "owner/project")
       [path_join "/repo" "CHANGELOG.md"; path_join "/repo" "setup.py"]
       "2024.03.05" w in
   r.2 = Raised (GitCommandError (GitCall "tag" ["-a"; "2024.03.05"] [])) ∧
   command <$> git_calls r.1 = ["add"; "add"; "commit"]).
Proof. vm_compute. repeat split. Qed.

(** * Further properties of the script *)

(** ** The stages, run on a state that has their files *)

Lemma write_changelog_run (w : World) (path : string) (old content : text) :
  files w !! path = Some old →
  write_changelog path content w
  = (set_files
       (<[path := str_replace MARKER (MARKER ++ [NL; NL] ++ content) old]>
          (files w)) w,
     Returned tt).
Proof. intros Hf. unfold write_changelog; run_M. by rewrite Hf. Qed.

Lemma update_version_run (re_template : text → outcome (text → text))
    (w : World) (path release : string) (old : text) :
  files w !! path = Some old →
  has_backslash (txt release) = false →
  update_version re_template path release w
  = (set_files
       (<[path := sub_from VERSION_PATTERN
                    (λ _, txt "version = " ++ [DQUOTE] ++ txt release ++
                          [DQUOTE]) 0 old]> (files w)) w,
     Returned tt).
Proof.
  intros Hf Hr. unfold update_version, re_sub; run_M.
  by rewrite Hf, !has_backslash_app, Hr.
Qed.

Lemma path_join_ne (dir a b : string) : a ≠ b → path_join dir a ≠ path_join dir b.
Proof.
  unfold path_join. intros Hab H.
  apply String.app_inj in H. apply String.app_inj in H. done.
Qed.

(** ** The two file updates *)

Lemma update_version_at_version_line_witness :
  let w := files_only {[ "setup.py" := sample_setup ]} in
  update_version reject_escapes "setup.py" "2024.03.05" w
  = (set_files
       (<["setup.py" :=
            txt "name = x" ++
            (txt "version = " ++ [DQUOTE] ++ txt "2024.03.05" ++ [DQUOTE]) ++
            txt "url = y" ++ [NL]]> (files w)) w,
     Returned tt).
Proof.
  intros w.
  apply (update_version_at_version_line reject_escapes w "setup.py"
           "2024.03.05" (txt "name = x") (txt "0") (txt "1") (txt "0")
           (txt "url = y" ++ [NL])); try (vm_compute; reflexivity);
    try discriminate.
  intros k Hk. vm_compute in Hk.
  do 8 (destruct k as [|k]; [reflexivity|]). lia.
Defined.

(** X2.  Neither file update touches anything but its file, whether it
    returns or raises: every other file keeps its text, and the git
    commands run, the releases and the printed lines are what they were. *)
Theorem file_updates_touch_one_file
    (re_template : text → outcome (text → text))
    (w : World) (path release : string) (content : text) :
  let w1 := (write_changelog path content w).1 in
  let w2 := (update_version re_template path release w).1 in
  (∀ other, other ≠ path →
     files w1 !! other = files w !! other ∧
     files w2 !! other = files w !! other) ∧
  git_calls w1 = git_calls w ∧ git_calls w2 = git_calls w ∧
  releases w1 = releases w ∧ releases w2 = releases w ∧
  stdout w1 = stdout w ∧ stdout w2 = stdout w.
Proof.
  unfold write_changelog, update_version, re_sub; run_M.
  destruct (files w !! path) as [old|]; simpl.
  - destruct (if has_backslash _ then _ else _) as [f|e]; simpl;
      split_and!; try done; intros other Hne;
      by rewrite ?lookup_insert_ne.
  - by split_and!.
Qed.

(** X3.  On a path that holds no file both updates raise
    [FileNotFoundError] for that path and leave the state as it was. *)
Theorem file_updates_missing_file
    (re_template : text → outcome (text → text))
    (w : World) (path release : string) (content : text) :
  files w !! path = None →
  write_changelog path content w = (w, Raised (FileNotFoundError path)) ∧
  update_version re_template path release w
  = (w, Raised (FileNotFoundError path)).
Proof.
  intros Hf. unfold write_changelog, update_version; run_M. by rewrite Hf.
Qed.

Lemma file_updates_missing_file_witness :
  let w := files_only {[ "setup.py" := sample_setup ]} in
  write_changelog "CHANGELOG.md" (txt "## 2024.03.05") w
  = (w, Raised (FileNotFoundError "CHANGELOG.md")) ∧
  update_version reject_escapes "CHANGELOG.md" "2024.03.05" w
  = (w, Raised (FileNotFoundError "CHANGELOG.md")).
Proof.
  intros w.
  apply (file_updates_missing_file reject_escapes w "CHANGELOG.md"
           "2024.03.05" (txt "## 2024.03.05")).
  reflexivity.
Defined.

(** X4.  With the release identifier of a date, the version bump of a
    file that exists always returns: the replacement string has no
    backslash, so it is taken literally and the compiler of replacement
    templates is not consulted. *)
Theorem update_version_release_returns
    (re_template : text → outcome (text → text))
    (d : date) (w : World) (path : string) (old : text) :
  files w !! path = Some old →
  update_version re_template path (RELEASE d) w
  = (set_files
       (<[path := sub_from VERSION_PATTERN
                    (λ _, txt "version = " ++ [DQUOTE] ++ txt (RELEASE d) ++
                          [DQUOTE]) 0 old]> (files w)) w,
     Returned tt).
Proof.
  intros Hf. apply update_version_run; [done|].
  apply format_release_no_backslash.
Qed.

Lemma update_version_release_returns_witness :
  let w := files_only {[ "setup.py" := sample_setup ]} in
  update_version reject_escapes "setup.py" (RELEASE (Date 2024 3 5)) w
  = (set_files
       (<["setup.py" :=
            sub_from VERSION_PATTERN
              (λ _, txt "version = " ++ [DQUOTE] ++
                    txt (RELEASE (Date 2024 3 5)) ++ [DQUOTE]) 0
              sample_setup]> (files w)) w,
     Returned tt).
Proof.
  intros w.
  apply (update_version_release_returns reject_escapes (Date 2024 3 5) w
           "setup.py" sample_setup).
  reflexivity.
Defined.

Lemma digit_of_is_digit (n : nat) : is_digit (digit_of n) = true.
Proof.
  unfold digit_of. pose proof (Nat.mod_upper_bound n 10 ltac:(lia)) as H.
  generalize dependent (n mod 10). intros k Hk.
  do 10 (destruct k as [|k]; [reflexivity|]). lia.
Qed.

(** The assignment written for the release of a date is one the version
    pattern matches when it stands between two line breaks. *)
Lemma release_line_matches_pattern (d : date) (s : text) :
  match_here VERSION_PATTERN
    ([NL] ++ (txt "version = " ++ [DQUOTE] ++ txt (RELEASE d) ++ [DQUOTE]) ++
     [NL] ++ s)
  = Some s.
Proof.
  unfold RELEASE, format_release, txt.
  rewrite list_ascii_of_string_of_list_ascii.
  set (y := [digit_of (year d / 1000); digit_of (year d / 100);
             digit_of (year d / 10); digit_of (year d)]).
  set (m := [digit_of (month d / 10); digit_of (month d)]).
  set (n := [digit_of (day d / 10); digit_of (day d)]).
  replace ([NL] ++ _ ++ [NL] ++ s) with (version_line y m n ++ s).
  - apply match_version_line; subst y m n; try done;
      cbn [forallb]; by rewrite !digit_of_is_digit.
  - unfold version_line, txt. by rewrite <-!app_assoc.
Qed.

(** X5.  When a blank line precedes and a blank line follows the version
    line, the bump for the release of a date takes the two inner line
    breaks and leaves the outer ones: the file reads the text before, a
    line break, the new assignment, a line break and the text after, and
    the version pattern matches it again at the place of the assignment. *)
Theorem bump_between_blank_lines_matches_again
    (re_template : text → outcome (text → text))
    (w : World) (path : string) (d : date) (pre a b c post : text) :
  let old := (pre ++ [NL]) ++ version_line a b c ++ [NL] ++ post in
  let assignment :=
    txt "version = " ++ [DQUOTE] ++ txt (RELEASE d) ++ [DQUOTE] in
  let updated := pre ++ [NL] ++ assignment ++ [NL] ++ post in
  files w !! path = Some old →
  a ≠ [] → b ≠ [] → c ≠ [] →
  forallb is_digit a = true → forallb is_digit b = true →
  forallb is_digit c = true →
  (∀ k, k < length (pre ++ [NL]) →
        match_here VERSION_PATTERN (drop k old) = None) →
  re_search VERSION_PATTERN ([NL] ++ post) = false →
  update_version re_template path (RELEASE d) w
  = (set_files (<[path := updated]> (files w)) w, Returned tt) ∧
  match_here VERSION_PATTERN (drop (length pre) updated) = Some post.
Proof.
  intros old assignment updated Hf Ha Hb Hc Da Db Dc Hpre Hpost. split.
  - rewrite (update_version_run _ _ _ _ old)
      by (done || apply format_release_no_backslash).
    do 3 f_equal. subst old updated. fold assignment.
    rewrite sub_from_pass by done.
    rewrite sub_from_match; [|by destruct a|by apply match_version_line].
    rewrite sub_from_no_match by done. by rewrite <-!app_assoc.
  - subst updated. rewrite drop_app_length.
    apply release_line_matches_pattern.
Qed.

Lemma bump_between_blank_lines_matches_again_witness :
  let d := Date 2024 3 5 in
  let old :=
    (txt "name = x" ++ [NL]) ++ version_line (txt "0") (txt "1") (txt "0") ++
    [NL] ++ txt "url = y" in
  let assignment :=
    txt "version = " ++ [DQUOTE] ++ txt (RELEASE d) ++ [DQUOTE] in
  let updated :=
    txt "name = x" ++ [NL] ++ assignment ++ [NL] ++ txt "url = y" in
  let w := files_only {[ "setup.py" := old ]} in
  update_version reject_escapes "setup.py" (RELEASE d) w
  = (set_files (<["setup.py" := updated]> (files w)) w, Returned tt) ∧
  match_here VERSION_PATTERN (drop (length (txt "name = x")) updated)
  = Some (txt "url = y").
Proof.
  intros d old assignment updated w.
  apply (bump_between_blank_lines_matches_again reject_escapes w "setup.py" d
           (txt "name = x") (txt "0") (txt "1") (txt "0") (txt "url = y"));
    try discriminate; try reflexivity.
  intros k Hk. vm_compute in Hk.
  do 9 (destruct k as [|k]; [reflexivity|]). lia.
Defined.

(** ** The git step when a command is rejected *)

(** X6.  The git step ends at the first command that git rejects, for
    every list of paths: the commands before it have been carried out,
    [GitCommandError] is raised for it, and none of the later commands is
    run.  In particular nothing is pushed when the commit or the tag is
    rejected. *)
Theorem update_git_repo_stops_at_rejected (token repository : option string)
    (paths : list string) (release : string) (w : World)
    (pre : list git_call) (c : git_call) (post : list git_call) :
  ((λ path, GitCall "add" [path] []) <$> paths) ++
  [GitCall "commit" []
     [("m", "Release " +:+ release);
      ("author", "GitHub Actions <actions@github.com>")];
   GitCall "tag" ["-a"; release] [];
   GitCall "push"
     ["https://" +:+ py_str token +:+ "@github.com/" +:+
      py_str repository +:+ ".git"; "master"] [];
   GitCall "push"
     ["--tags";
      "https://" +:+ py_str token +:+ "@github.com/" +:+
      py_str repository +:+ ".git"; "master"] []]
  = pre ++ c :: post →
  (∀ k c', pre !! k = Some c' →
           git_accepts w (files w) (git_calls w ++ take k pre) c' = true) →
  git_accepts w (files w) (git_calls w ++ pre) c = false →
  update_git_repo token repository paths release w
  = (set_git_calls (git_calls w ++ pre) w, Raised (GitCommandError c)).
Proof.
  intros Hcut Hpre Hc. rewrite update_git_repo_git_all, Hcut.
  by apply git_all_rejected.
Qed.

Lemma update_git_repo_stops_at_rejected_witness :
  let w := strict_git_world ∅ (repo_with []) in
  update_git_repo (Some "t0ken") (Some "owner/project")
    ["CHANGELOG.md"; "setup.py"] "2024.03.05" w
  = (set_git_calls
       (git_calls w ++
        [GitCall "add" ["CHANGELOG.md"] []; GitCall "add" ["setup.py"] [];
         GitCall "commit" []
           [("m", "Release 2024.03.05");
            ("author", "GitHub Actions <actions@github.com>")]]) w,
     Raised (GitCommandError (GitCall "tag" ["-a"; "2024.03.05"] []))).
Proof.
  intros w.
  apply (update_git_repo_stops_at_rejected (Some "t0ken")
           (Some "owner/project") ["CHANGELOG.md"; "setup.py"] "2024.03.05" w
           [GitCall "add" ["CHANGELOG.md"] []; GitCall "add" ["setup.py"] [];
            GitCall "commit" []
              [("m", "Release 2024.03.05");
               ("author", "GitHub Actions <actions@github.com>")]]
           (GitCall "tag" ["-a"; "2024.03.05"] [])
           [GitCall "push"
              ["https://t0ken@github.com/owner/project.git"; "master"] [];
            GitCall "push"
              ["--tags"; "https://t0ken@github.com/owner/project.git";
               "master"] []]);
    [reflexivity | | reflexivity].
  intros k c' Hk.
  do 3 (destruct k as [|k]; [injection Hk as <-; reflexivity|]).
  discriminate.
Defined.

(** ** A whole run of [main] *)

Lemma generate_md_run (root : string) (d : date)
    (jinja_render :
       text → date → gmap string (list PullRequest) → outcome text)
    (grouped : gmap string (list PullRequest)) (w : World) :
  generate_md root d jinja_render grouped w
  = (w, match files w !! path_join (path_join root ".github")
                           "changelog-template.md" with
        | Some source => jinja_render source d grouped
        | None =>
            Raised (FileNotFoundError
                      (path_join (path_join root ".github")
                         "changelog-template.md"))
        end).
Proof. unfold generate_md; run_M. by destruct (files w !! _). Qed.

(** Enters [main] past the fetch and the classifier. *)
Ltac enter_main Hrepo Hfetch Hgroup :=
  unfold main, Github_get_repo, list_of; run_M;
  rewrite Hrepo, Hfetch; cbn [fst snd];
  match goal with
  | |- context [match ?l with [] => _ | _ :: _ => _ end] =>
      destruct l; [done|]
  end;
  rewrite Hgroup, generate_md_run.

(** X7.  A run in which pull requests were fetched, the template renders,
    the changelog and the version file exist, git accepts each of the six
    commands of the git step in its turn and the host accepts the release
    returns normally, and its effects are exactly these: the changelog
    holds the rendered fragment after every marker, the version file holds
    the result of the version substitution, the six git commands have been
    carried out on these two paths, and one release with the release
    identifier as tag and as name and the rendered fragment as message has
    been created.  Nothing is printed. *)
Theorem main_release_run
    (root : string) (token : option string)
    (full_name : string) (d : date)
    (re_template : text → outcome (text → text))
    (jinja_render :
       text → date → gmap string (list PullRequest) → outcome text)
    (w : World) (repo : Repository) (pulls : list PullRequest)
    (grouped : gmap string (list PullRequest))
    (source summary changelog setup : text) :
  let changelog_path := path_join root "CHANGELOG.md" in
  let setup_py_path := path_join root "setup.py" in
  let new_files :=
    <[setup_py_path :=
        sub_from VERSION_PATTERN
          (λ _, txt "version = " ++ [DQUOTE] ++ txt (RELEASE d) ++ [DQUOTE])
          0 setup]>
      (<[changelog_path :=
           str_replace MARKER (MARKER ++ [NL; NL] ++ summary) changelog]>
         (files w)) in
  let server :=
    "https://" +:+ py_str token +:+ "@github.com/" +:+ full_name +:+ ".git" in
  let commands :=
    [GitCall "add" [changelog_path] [];
     GitCall "add" [setup_py_path] [];
     GitCall "commit" []
       [("m", "Release " +:+ RELEASE d);
        ("author", "GitHub Actions <actions@github.com>")];
     GitCall "tag" ["-a"; RELEASE d] [];
     GitCall "push" [server; "master"] [];
     GitCall "push" ["--tags"; server; "master"] []] in
  let release :=
    {| rel_tag := RELEASE d; rel_name := RELEASE d; rel_message := summary |} in
  remote w full_name = Some repo →
  iter_pulls d repo = (pulls, None) →
  pulls ≠ [] →
  group_pulls_by_change_type pulls = Returned grouped →
  files w !! path_join (path_join root ".github") "changelog-template.md"
  = Some source →
  jinja_render source d grouped = Returned summary →
  files w !! changelog_path = Some changelog →
  files w !! setup_py_path = Some setup →
  (∀ k c, commands !! k = Some c →
          git_accepts w new_files (git_calls w ++ take k commands) c = true) →
  release_accepted w (releases w) release = true →
  main root token (Some full_name) d re_template jinja_render w
  = (set_releases (releases w ++ [release])
       (set_git_calls (git_calls w ++ commands) (set_files new_files w)),
     Returned tt).
Proof.
  intros changelog_path setup_py_path new_files server commands release
    Hrepo Hfetch Hne Hgroup Htpl Hrender Hcl Hsetup Hgit Hrel.
  enter_main Hrepo Hfetch Hgroup.
  rewrite Htpl, Hrender.
  rewrite (write_changelog_run w _ changelog) by done.
  rewrite (update_version_run _ _ _ _ setup);
    [|cbn [files set_files];
      by rewrite lookup_insert_ne by (by apply path_join_ne)
     |apply format_release_no_backslash].
  rewrite update_git_repo_git_all.
  rewrite git_all_accepted by exact Hgit.
  unfold create_git_release.
  cbn [release_accepted releases set_git_calls set_files].
  fold release. by rewrite Hrel.
Qed.

Lemma main_release_run_witness :
  let d := Date 2024 3 5 in
  let w := release_world sample_files (repo_with [[pr_bug; pr_plain]]) in
  let new_files :=
    <[path_join "/repo" "setup.py" :=
        sub_from VERSION_PATTERN
          (λ _, txt "version = " ++ [DQUOTE] ++ txt (RELEASE d) ++ [DQUOTE])
          0 sample_setup]>
      (<[path_join "/repo" "CHANGELOG.md" :=
           str_replace MARKER (MARKER ++ [NL; NL] ++ sample_template)
             sample_changelog]> (files w)) in
  let server :=
    "https://" +:+ py_str (Some "t0ken") +:+ "@github.com/" +:+
    "owner/project" +:+ ".git" in
  let commands :=
    [GitCall "add" [path_join "/repo" "CHANGELOG.md"] [];
     GitCall "add" [path_join "/repo" "setup.py"] [];
     GitCall "commit" []
       [("m", "Release " +:+ RELEASE d);
        ("author", "GitHub Actions <actions@github.com>")];
     GitCall "tag" ["-a"; RELEASE d] [];
     GitCall "push" [server; "master"] [];
     GitCall "push" ["--tags"; server; "master"] []] in
  let release :=
    {| rel_tag := RELEASE d; rel_name := RELEASE d;
       rel_message := sample_template |} in
  main "/repo" (Some "t0ken") (Some "owner/project") d reject_escapes
       plain_render w
  = (set_releases (releases w ++ [release])
       (set_git_calls (git_calls w ++ commands) (set_files new_files w)),
     Returned tt).
Proof.
  intros d w new_files server commands release.
  apply (main_release_run "/repo" (Some "t0ken") "owner/project" d
           reject_escapes plain_render w (repo_with [[pr_bug; pr_plain]])
           [pr_bug; pr_plain]
           (<["Changed" := [pr_plain]]>
              (<["Fixed" := [pr_bug]]> (<["Updated" := []]> ∅)))
           sample_template sample_template sample_changelog sample_setup);
    try discriminate; vm_compute; reflexivity.
Defined.

(** X16.  When git rejects one of the six commands of the git step, the
    run raises [GitCommandError] for it with both files already rewritten
    and the earlier git commands carried out; the later commands are not
    run and no release is created.  With a git that refuses the annotated
    tag for want of a message, the changes are committed and nothing is
    pushed. *)
Theorem main_stops_when_git_rejects
    (root : string) (token : option string)
    (full_name : string) (d : date)
    (re_template : text → outcome (text → text))
    (jinja_render :
       text → date → gmap string (list PullRequest) → outcome text)
    (w : World) (repo : Repository) (pulls : list PullRequest)
    (grouped : gmap string (list PullRequest))
    (source summary changelog setup : text)
    (pre : list git_call) (c : git_call) (post : list git_call) :
  let changelog_path := path_join root "CHANGELOG.md" in
  let setup_py_path := path_join root "setup.py" in
  let new_files :=
    <[setup_py_path :=
        sub_from VERSION_PATTERN
          (λ _, txt "version = " ++ [DQUOTE] ++ txt (RELEASE d) ++ [DQUOTE])
          0 setup]>
      (<[changelog_path :=
           str_replace MARKER (MARKER ++ [NL; NL] ++ summary) changelog]>
         (files w)) in
  let server :=
    "https://" +:+ py_str token +:+ "@github.com/" +:+ full_name +:+ ".git" in
  let commands :=
    [GitCall "add" [changelog_path] [];
     GitCall "add" [setup_py_path] [];
     GitCall "commit" []
       [("m", "Release " +:+ RELEASE d);
        ("author", "GitHub Actions <actions@github.com>")];
     GitCall "tag" ["-a"; RELEASE d] [];
     GitCall "push" [server; "master"] [];
     GitCall "push" ["--tags"; server; "master"] []] in
  remote w full_name = Some repo →
  iter_pulls d repo = (pulls, None) →
  pulls ≠ [] →
  group_pulls_by_change_type pulls = Returned grouped →
  files w !! path_join (path_join root ".github") "changelog-template.md"
  = Some source →
  jinja_render source d grouped = Returned summary →
  files w !! changelog_path = Some changelog →
  files w !! setup_py_path = Some setup →
  commands = pre ++ c :: post →
  (∀ k c', pre !! k = Some c' →
           git_accepts w new_files (git_calls w ++ take k pre) c' = true) →
  git_accepts w new_files (git_calls w ++ pre) c = false →
  main root token (Some full_name) d re_template jinja_render w
  = (set_git_calls (git_calls w ++ pre) (set_files new_files w),
     Raised (GitCommandError c)).
Proof.
  intros changelog_path setup_py_path new_files server commands
    Hrepo Hfetch Hne Hgroup Htpl Hrender Hcl Hsetup Hcut Hpre Hc.
  enter_main Hrepo Hfetch Hgroup.
  rewrite Htpl, Hrender.
  rewrite (write_changelog_run w _ changelog) by done.
  rewrite (update_version_run _ _ _ _ setup);
    [|cbn [files set_files];
      by rewrite lookup_insert_ne by (by apply path_join_ne)
     |apply format_release_no_backslash].
  rewrite update_git_repo_git_all.
  change (((λ path, GitCall "add" [path] []) <$> _) ++ _) with commands.
  rewrite Hcut.
  by rewrite git_all_rejected by first [exact Hpre | exact Hc].
Qed.

Lemma main_stops_when_git_rejects_witness :
  let d := Date 2024 3 5 in
  let w := strict_git_world sample_files (repo_with [[pr_bug; pr_plain]]) in
  let new_files :=
    <[path_join "/repo" "setup.py" :=
        sub_from VERSION_PATTERN
          (λ _, txt "version = " ++ [DQUOTE] ++ txt (RELEASE d) ++ [DQUOTE])
          0 sample_setup]>
      (<[path_join "/repo" "CHANGELOG.md" :=
           str_replace MARKER (MARKER ++ [NL; NL] ++ sample_template)
             sample_changelog]> (files w)) in
  main "/repo" (Some "t0ken") (Some "owner/project") d reject_escapes
       plain_render w
  = (set_git_calls
       (git_calls w ++
        [GitCall "add" [path_join "/repo" "CHANGELOG.md"] [];
         GitCall "add" [path_join "/repo" "setup.py"] [];
         GitCall "commit" []
           [("m", "Release " +:+ RELEASE d);
            ("author", "GitHub Actions <actions@github.com>")]])
       (set_files new_files w),
     Raised (GitCommandError (GitCall "tag" ["-a"; RELEASE d] []))).
Proof.
  intros d w new_files.
  apply (main_stops_when_git_rejects "/repo" (Some "t0ken") "owner/project" d
           reject_escapes plain_render w (repo_with [[pr_bug; pr_plain]])
           [pr_bug; pr_plain]
           (<["Changed" := [pr_plain]]>
              (<["Fixed" := [pr_bug]]> (<["Updated" := []]> ∅)))
           sample_template sample_template sample_changelog sample_setup
           [GitCall "add" [path_join "/repo" "CHANGELOG.md"] [];
            GitCall "add" [path_join "/repo" "setup.py"] [];
            GitCall "commit" []
              [("m", "Release " +:+ RELEASE d);
               ("author", "GitHub Actions <actions@github.com>")]]
           (GitCall "tag" ["-a"; RELEASE d] [])
           [GitCall "push"
              ["https://" +:+ py_str (Some "t0ken") +:+ "@github.com/" +:+
               "owner/project" +:+ ".git"; "master"] [];
            GitCall "push"
              ["--tags";
               "https://" +:+ py_str (Some "t0ken") +:+ "@github.com/" +:+
               "owner/project" +:+ ".git"; "master"] []]);
    try discriminate; try (vm_compute; reflexivity).
  intros k c' Hk.
  do 3 (destruct k as [|k]; [injection Hk as <-; reflexivity|]).
  discriminate.
Defined.

(** X8.  There is no rollback.  When the version file is missing, the run
    raises [FileNotFoundError] for it after the changelog has been
    rewritten: the new changelog stays on disk, and no git command has run
    and no release exists. *)
Theorem main_keeps_changelog_when_version_file_missing
    (root : string) (token : option string)
    (full_name : string) (d : date)
    (re_template : text → outcome (text → text))
    (jinja_render :
       text → date → gmap string (list PullRequest) → outcome text)
    (w : World) (repo : Repository) (pulls : list PullRequest)
    (grouped : gmap string (list PullRequest))
    (source summary changelog : text) :
  remote w full_name = Some repo →
  iter_pulls d repo = (pulls, None) →
  pulls ≠ [] →
  group_pulls_by_change_type pulls = Returned grouped →
  files w !! path_join (path_join root ".github") "changelog-template.md"
  = Some source →
  jinja_render source d grouped = Returned summary →
  files w !! path_join root "CHANGELOG.md" = Some changelog →
  files w !! path_join root "setup.py" = None →
  main root token (Some full_name) d re_template jinja_render w
  = (set_files
       (<[path_join root "CHANGELOG.md" :=
            str_replace MARKER (MARKER ++ [NL; NL] ++ summary) changelog]>
          (files w)) w,
     Raised (FileNotFoundError (path_join root "setup.py"))).
Proof.
  intros Hrepo Hfetch Hne Hgroup Htpl Hrender Hcl Hsetup.
  enter_main Hrepo Hfetch Hgroup.
  rewrite Htpl, Hrender.
  rewrite (write_changelog_run w _ changelog) by done.
  unfold update_version; run_M. cbn [files set_files].
  by rewrite lookup_insert_ne, Hsetup by (by apply path_join_ne).
Qed.

Lemma main_keeps_changelog_when_version_file_missing_witness :
  let d := Date 2024 3 5 in
  let w :=
    release_world (delete "/repo/setup.py" sample_files)
      (repo_with [[pr_bug; pr_plain]]) in
  main "/repo" (Some "t0ken") (Some "owner/project") d reject_escapes
       plain_render w
  = (set_files
       (<[path_join "/repo" "CHANGELOG.md" :=
            str_replace MARKER (MARKER ++ [NL; NL] ++ sample_template)
              sample_changelog]> (files w)) w,
     Raised (FileNotFoundError (path_join "/repo" "setup.py"))).
Proof.
  intros d w.
  apply (main_keeps_changelog_when_version_file_missing
           "/repo" (Some "t0ken") "owner/project" d
           reject_escapes plain_render w (repo_with [[pr_bug; pr_plain]])
           [pr_bug; pr_plain]
           (<["Changed" := [pr_plain]]>
              (<["Fixed" := [pr_bug]]> (<["Updated" := []]> ∅)))
           sample_template sample_template sample_changelog);
    try discriminate; vm_compute; reflexivity.
Defined.

(** X9.  A run that fails before the changelog is written changes
    nothing.  This is so when the template is missing, when the template
    does not render, and when the changelog is missing: the exception is
    the one of that step, and the state is what it was. *)
Theorem main_fails_before_writing
    (root : string) (token : option string)
    (full_name : string) (d : date)
    (re_template : text → outcome (text → text))
    (jinja_render :
       text → date → gmap string (list PullRequest) → outcome text)
    (w : World) (repo : Repository) (pulls : list PullRequest)
    (grouped : gmap string (list PullRequest)) (e : exn) :
  remote w full_name = Some repo →
  iter_pulls d repo = (pulls, None) →
  pulls ≠ [] →
  group_pulls_by_change_type pulls = Returned grouped →
  let template :=
    path_join (path_join root ".github") "changelog-template.md" in
  (files w !! template = None ∧ e = FileNotFoundError template) ∨
  (∃ source, files w !! template = Some source ∧
             jinja_render source d grouped = Raised e) ∨
  (∃ source summary,
     files w !! template = Some source ∧
     jinja_render source d grouped = Returned summary ∧
     files w !! path_join root "CHANGELOG.md" = None ∧
     e = FileNotFoundError (path_join root "CHANGELOG.md")) →
  main root token (Some full_name) d re_template jinja_render w
  = (w, Raised e).
Proof.
  intros Hrepo Hfetch Hne Hgroup template Hcase.
  enter_main Hrepo Hfetch Hgroup. fold template.
  destruct Hcase as [[Htpl ->]|[(source & Htpl & Hr)|
                                (source & summary & Htpl & Hr & Hcl & ->)]];
    rewrite Htpl; [done|by rewrite Hr|].
  rewrite Hr. unfold write_changelog; run_M. by rewrite Hcl.
Qed.

Lemma main_fails_before_writing_witness :
  let d := Date 2024 3 5 in
  let w :=
    release_world (delete "/repo/CHANGELOG.md" sample_files)
      (repo_with [[pr_bug; pr_plain]]) in
  main "/repo" (Some "t0ken") (Some "owner/project") d reject_escapes
       plain_render w
  = (w, Raised (FileNotFoundError (path_join "/repo" "CHANGELOG.md"))).
Proof.
  intros d w.
  apply (main_fails_before_writing
           "/repo" (Some "t0ken") "owner/project" d
           reject_escapes plain_render w (repo_with [[pr_bug; pr_plain]])
           [pr_bug; pr_plain]
           (<["Changed" := [pr_plain]]>
              (<["Fixed" := [pr_bug]]> (<["Updated" := []]> ∅)))
           (FileNotFoundError (path_join "/repo" "CHANGELOG.md")));
    try discriminate; try (vm_compute; reflexivity).
  right; right. exists sample_template, sample_template.
  repeat split; vm_compute; reflexivity.
Defined.

(** ** A pull request without its merge time *)

Lemma merged_on_date_decide (d : date) (q : PullRequest) :
  (merged q = true → is_Some (merged_at q)) →
  merged_on_date d q
  = Returned (bool_decide (merged q = true ∧
                           datetime_date <$> merged_at q = Some d)).
Proof.
  intros Hwf. unfold merged_on_date. destruct (merged q) eqn:Em.
  - destruct (Hwf eq_refl) as [t Ht]. rewrite Ht. simpl. f_equal.
    destruct (date_eqb (datetime_date t) d) eqn:Ed.
    + apply date_eqb_eq in Ed as ->. by rewrite bool_decide_eq_true_2.
    + rewrite bool_decide_eq_false_2; [done|].
      intros [_ [= Hd]]. apply date_eqb_eq in Hd. congruence.
  - rewrite bool_decide_eq_false_2; [done | by intros [? _]].
Qed.

Lemma yield_if_raise {A} (keep : A → outcome bool) (P : A → Prop)
    `{!∀ x, Decision (P x)} (pre : list A) (x : A) (post : list A) (e : exn) :
  (∀ y, y ∈ pre → keep y = Returned (bool_decide (P y))) →
  keep x = Raised e →
  yield_if keep (pre ++ x :: post) = (filter P pre, Some e).
Proof.
  intros Hpre Hx. induction pre as [|y pre IH]; simpl.
  - by rewrite Hx.
  - rewrite (Hpre y) by left. rewrite IH by (intros; apply Hpre; by right).
    simpl. rewrite filter_cons. by case_bool_decide; case_decide.
Qed.

(** X10.  A pull request of the first page that is flagged merged and has
    no merge time stops the fetcher with [AttributeError]: the generator
    has yielded the matching pull requests that precede it on the page,
    and [main], which collects the generator into a list, raises the same
    exception and changes nothing, whatever was yielded. *)
Theorem fetch_stops_without_merge_time
    (root : string) (token : option string) (full_name : string) (d : date)
    (re_template : text → outcome (text → text))
    (jinja_render :
       text → date → gmap string (list PullRequest) → outcome text)
    (w : World) (repo : Repository)
    (pre : list PullRequest) (p : PullRequest) (post : list PullRequest) :
  remote w full_name = Some repo →
  get_page (get_pulls repo (PullsQuery "closed" "updated" "desc")) 0
  = pre ++ p :: post →
  (∀ q, q ∈ pre → merged q = true → is_Some (merged_at q)) →
  merged p = true → merged_at p = None →
  iter_pulls d repo
  = (filter (λ q, merged q = true ∧ datetime_date <$> merged_at q = Some d)
            pre, Some AttributeError) ∧
  main root token (Some full_name) d re_template jinja_render w
  = (w, Raised AttributeError).
Proof.
  intros Hrepo Hpage Hwf Hm Hat.
  assert (iter_pulls d repo
          = (filter (λ q, merged q = true ∧
                          datetime_date <$> merged_at q = Some d) pre,
             Some AttributeError)) as E.
  { unfold iter_pulls. rewrite Hpage. apply yield_if_raise.
    - intros q Hq. apply merged_on_date_decide. by apply Hwf.
    - unfold merged_on_date. by rewrite Hm, Hat. }
  split; [done|].
  unfold main, Github_get_repo, list_of; run_M. by rewrite Hrepo, E.
Qed.

Lemma fetch_stops_without_merge_time_witness :
  let d := Date 2024 3 5 in
  let broken :=
    {| number := 6; title := "No merge time"; merged := true;
       merged_at := None; labels := [] |} in
  let repo := repo_with [[pr_bug; pr_both; broken; pr_plain]] in
  let w := release_world sample_files repo in
  iter_pulls d repo
  = (filter (λ q, merged q = true ∧ datetime_date <$> merged_at q = Some d)
            [pr_bug; pr_both], Some AttributeError) ∧
  main "/repo" (Some "t0ken") (Some "owner/project") d reject_escapes
       plain_render w
  = (w, Raised AttributeError).
Proof.
  intros d broken repo w.
  apply (fetch_stops_without_merge_time "/repo" (Some "t0ken")
           "owner/project" d reject_escapes plain_render w repo
           [pr_bug; pr_both] broken [pr_plain]); try reflexivity.
  intros q Hq _.
  apply elem_of_cons in Hq as [->|Hq]; [by eexists|].
  apply elem_of_cons in Hq as [->|Hq]; [by eexists|].
  by apply elem_of_nil in Hq.
Defined.

(** ** Two changelog updates in a row *)

(** X11.  Two updates of a changelog with one marker put the second
    fragment above the first: the file reads the old head, the marker, a
    blank line, the second fragment, a blank line, the first fragment and
    the old entries.  (The first fragment followed by the old entries must
    not contain the marker.) *)
Theorem write_changelog_twice_newest_first (w : World) (path : string)
    (pre post first second : text) :
  files w !! path = Some (pre ++ MARKER ++ post) →
  occurrences MARKER (pre ++ MARKER ++ post) = [length pre] →
  occurrences MARKER (first ++ post) = [] →
  (write_changelog path first ;; write_changelog path second) w
  = (set_files
       (<[path := pre ++ MARKER ++ [NL; NL] ++ second ++ [NL; NL] ++ first ++
                  post]> (files w)) w,
     Returned tt).
Proof.
  intros Hf Hone Hfirst. unfold bind.
  rewrite (write_changelog_run w path _ first Hf).
  rewrite replace_marker_once by done.
  rewrite (write_changelog_run _ path
             (pre ++ MARKER ++ [NL; NL] ++ first ++ post) second)
    by (cbn [files set_files]; rewrite lookup_insert_eq;
        by rewrite <-!app_assoc).
  rewrite replace_marker_once by (by apply occurrences_marker_updated).
  unfold set_files; cbn [files git_branch git_calls releases stdout remote].
  rewrite insert_insert_eq. by rewrite <-!app_assoc.
Qed.

Lemma write_changelog_twice_newest_first_witness :
  let pre := txt "# Changelog" ++ [NL] in
  let post := [NL] ++ txt "## 2024.03.04" in
  let w := files_only {[ "CHANGELOG.md" := pre ++ MARKER ++ post ]} in
  (write_changelog "CHANGELOG.md" (txt "## 2024.03.05") ;;
   write_changelog "CHANGELOG.md" (txt "## 2024.03.06")) w
  = (set_files
       (<["CHANGELOG.md" :=
            pre ++ MARKER ++ [NL; NL] ++ txt "## 2024.03.06" ++ [NL; NL] ++
            txt "## 2024.03.05" ++ post]> (files w)) w,
     Returned tt).
Proof.
  intros pre post w.
  apply (write_changelog_twice_newest_first w "CHANGELOG.md" pre post
           (txt "## 2024.03.05") (txt "## 2024.03.06"));
    vm_compute; reflexivity.
Defined.

(** ** The classifier on a concatenation *)

Lemma group_pulls_keys (pulls : list PullRequest)
    (m : gmap string (list PullRequest)) (g : string) (l : list PullRequest) :
  group_pulls_by_change_type pulls = Returned m → m !! g = Some l →
  g = "Changed" ∨ g = "Fixed" ∨ g = "Updated".
Proof.
  intros Hrun Hl.
  destruct (group_pulls_spec pulls) as (m' & Hrun' & Hdom & _).
  rewrite Hrun in Hrun'. injection Hrun' as <-.
  assert (g ∈ dom m) as Hg by (apply elem_of_dom; eauto).
  rewrite Hdom in Hg.
  apply elem_of_union in Hg as [Hg|Hg];
    [apply elem_of_union in Hg as [Hg|Hg]|];
    apply elem_of_singleton in Hg; auto.
Qed.

(** X12.  Classifying a concatenation gives, group by group, the list of
    the first part followed by the list of the second part: pull requests
    fetched later are appended and never reorder the earlier ones. *)
Theorem classifier_append (ps qs : list PullRequest) :
  ∃ m1 m2 m : gmap string (list PullRequest),
    group_pulls_by_change_type ps = Returned m1 ∧
    group_pulls_by_change_type qs = Returned m2 ∧
    group_pulls_by_change_type (ps ++ qs) = Returned m ∧
    ∀ g l1 l2, m1 !! g = Some l1 → m2 !! g = Some l2 →
               m !! g = Some (l1 ++ l2).
Proof.
  destruct (group_pulls_spec ps) as (m1 & Hrun1 & _ & _ & Hm1).
  destruct (group_pulls_spec qs) as (m2 & Hrun2 & _ & _ & Hm2).
  destruct (group_pulls_spec (ps ++ qs)) as (m & Hrun & _ & Hm & _).
  exists m1, m2, m. split_and!; try done.
  intros g l1 l2 H1 H2.
  rewrite Hm by exact (group_pulls_keys ps m1 g l1 Hrun1 H1).
  apply Hm1 in H1 as ->. apply Hm2 in H2 as ->. by rewrite filter_app.
Qed.

(** ** Running the module *)

Lemma script_without_repository_witness :
  let w := release_world sample_files (repo_with [[pr_bug]]) in
  script "/repo" (Date 2024 3 6) (Some "t0ken") None reject_escapes
         plain_render w
  = (w, Raised RuntimeError).
Proof.
  intros w.
  apply (script_without_repository "/repo" (Date 2024 3 6) (Date 2024 3 5)
           (Some "t0ken") reject_escapes plain_render w).
  reflexivity.
Defined.

(** ** Any number of markers, two version lines *)

Lemma occurrences_from_length (p : text) (i : nat) (s : text) :
  length (occurrences_from p i s) = length (occurrences p s).
Proof. unfold occurrences. by rewrite occurrences_from_shift, length_fmap. Qed.

Lemma replace_marker_length (ins : text) (n : nat) :
  ∀ s, length s ≤ n →
       length (str_replace MARKER (MARKER ++ ins) s)
       = length s + length (occurrences MARKER s) * length ins.
Proof.
  induction n as [|n IH]; intros s Hn.
  - destruct s; [|simpl in Hn; lia].
    by rewrite str_replace_absent.
  - destruct s as [|c s]; [by rewrite str_replace_absent|].
    destruct (startswith MARKER (c :: s)) eqn:E.
    + apply startswith_split in E. revert E Hn.
      generalize (drop (length MARKER) (c :: s)). intros r -> Hn.
      unfold str_replace, occurrences.
      rewrite replace_from_match by done.
      rewrite occurrences_from_marker. cbn [length].
      rewrite occurrences_from_length, !length_app.
      fold (str_replace MARKER (MARKER ++ ins) r).
      rewrite IH; [lia|].
      rewrite length_app in Hn.
      assert (length MARKER = 30) as Hlen by reflexivity. lia.
    + unfold str_replace, occurrences.
      rewrite occurrences_from_cons. cbn [replace_from]. rewrite E.
      cbn [length app]. rewrite occurrences_from_length.
      fold (str_replace MARKER (MARKER ++ ins) s).
      rewrite IH; [lia | simpl in Hn; lia].
Qed.

(** X13.  Whatever the changelog holds, the update removes nothing and
    inserts the blank line and the fragment once for every marker: the
    file grows by the number of markers times the length of the fragment
    plus two. *)
Theorem write_changelog_grows_per_marker (w : World) (path : string)
    (old content : text) :
  files w !! path = Some old →
  ∃ updated,
    write_changelog path content w
    = (set_files (<[path := updated]> (files w)) w, Returned tt) ∧
    length updated
    = length old + length (occurrences MARKER old) * (2 + length content).
Proof.
  intros Hf. eexists. split; [by apply write_changelog_run|].
  by rewrite (replace_marker_length ([NL; NL] ++ content) (length old)).
Qed.

Lemma write_changelog_grows_per_marker_witness :
  let old := MARKER ++ txt "a" ++ MARKER ++ txt "b" ++ MARKER in
  let w := files_only {[ "CHANGELOG.md" := old ]} in
  ∃ updated,
    write_changelog "CHANGELOG.md" (txt "## new") w
    = (set_files (<["CHANGELOG.md" := updated]> (files w)) w, Returned tt) ∧
    length updated
    = length old + length (occurrences MARKER old) *
                   (2 + length (txt "## new")).
Proof.
  intros old w.
  apply (write_changelog_grows_per_marker w "CHANGELOG.md" old (txt "## new")).
  reflexivity.
Defined.

(** X14.  The version bump does not stop at the first match.  In a file
    with two version lines that each have a line break of their own
    before and after them, and no other match, both assignments are
    replaced, each losing its two line breaks, and the text before,
    between and after them is kept.  (Two adjacent version lines share a
    line break and are not covered: there the first match takes it.) *)
Theorem update_version_rewrites_separate_lines
    (re_template : text → outcome (text → text))
    (w : World) (path release : string)
    (pre mid post a1 b1 c1 a2 b2 c2 : text) :
  let old := pre ++ version_line a1 b1 c1 ++ mid ++
             version_line a2 b2 c2 ++ post in
  let assignment := txt "version = " ++ [DQUOTE] ++ txt release ++ [DQUOTE] in
  files w !! path = Some old →
  has_backslash (txt release) = false →
  a1 ≠ [] ∧ b1 ≠ [] ∧ c1 ≠ [] ∧ a2 ≠ [] ∧ b2 ≠ [] ∧ c2 ≠ [] →
  forallb is_digit (a1 ++ b1 ++ c1 ++ a2 ++ b2 ++ c2) = true →
  (∀ k, k < length pre → match_here VERSION_PATTERN (drop k old) = None) →
  (∀ k, k < length mid →
        match_here VERSION_PATTERN
          (drop k (mid ++ version_line a2 b2 c2 ++ post)) = None) →
  re_search VERSION_PATTERN post = false →
  update_version re_template path release w
  = (set_files
       (<[path := pre ++ assignment ++ mid ++ assignment ++ post]> (files w))
       w,
     Returned tt).
Proof.
  intros old assignment Hf Hr (Ha1 & Hb1 & Hc1 & Ha2 & Hb2 & Hc2) Hd Hpre Hmid
    Hpost.
  rewrite !forallb_app, !andb_true_iff in Hd.
  destruct Hd as (Da1 & Db1 & Dc1 & Da2 & Db2 & Dc2).
  rewrite (update_version_run _ _ _ _ old) by done.
  do 3 f_equal. subst old. fold assignment.
  rewrite sub_from_pass by done.
  rewrite sub_from_match; [|by destruct a1|by apply match_version_line].
  rewrite sub_from_pass by done.
  rewrite sub_from_match; [|by destruct a2|by apply match_version_line].
  by rewrite sub_from_no_match.
Qed.

Lemma update_version_rewrites_separate_lines_witness :
  let old :=
    txt "a" ++ version_line (txt "0") (txt "1") (txt "0") ++ txt "b" ++
    version_line (txt "2") (txt "3") (txt "4") ++ txt "c" in
  let assignment :=
    txt "version = " ++ [DQUOTE] ++ txt "2024.03.05" ++ [DQUOTE] in
  let w := files_only {[ "setup.py" := old ]} in
  update_version reject_escapes "setup.py" "2024.03.05" w
  = (set_files
       (<["setup.py" :=
            txt "a" ++ assignment ++ txt "b" ++ assignment ++ txt "c"]>
          (files w)) w,
     Returned tt).
Proof.
  intros old assignment w.
  apply (update_version_rewrites_separate_lines reject_escapes w "setup.py"
           "2024.03.05" (txt "a") (txt "b") (txt "c")
           (txt "0") (txt "1") (txt "0") (txt "2") (txt "3") (txt "4"));
    try reflexivity.
  - repeat split; discriminate.
  - intros [|k] Hk; [reflexivity | simpl in Hk; lia].
  - intros [|k] Hk; [reflexivity | simpl in Hk; lia].
Defined.
